(** * PyPortal alarm clock: the state machine of [code.py]

    A shallow embedding of the four states ([Time_State], [Mugsy_State],
    [Alarm_State], [Setting_State]), of [change_to_state] and of one pass of
    the main loop, followed by the properties of the machine.

    Modelling conventions.
    - [time.monotonic()] readings and the stored timestamps are rationals
      ([Q]); the rounding of floating-point subtraction is abstracted away.
      Hours, minutes, touch coordinates and the light level are integers.
    - Python truthiness is written out: [None] and the number [0] are falsy,
      a touch tuple is always truthy.
    - The module-level variables live in [Globals]; the attributes of the
      state objects live next to them in [Machine].
    - Calls into the display, audio and network drivers are recorded in the
      [log] of the machine, most recent event first.  The two calls the
      source wraps in [try ... except RuntimeError] can raise [RuntimeError];
      the other driver calls are assumed to return.
    - Everything one loop pass reads from the outside world is gathered in
      an [Env] record. *)

From Stdlib Require Import ZArith QArith Bool List String Lia Lqa.
Import ListNotations.
Local Open Scope Z_scope.
Local Open Scope bool_scope.

(** ** Data *)

(** The keys of the [states] dictionary, named after the classes they map to. *)
Inductive StateName : Set :=
| Time_State
| Mugsy_State
| Alarm_State
| Setting_State.

(** The [name] property of each class. *)
Definition name (s : StateName) : string :=
  match s with
  | Time_State => "time"
  | Mugsy_State => "mugsy"
  | Alarm_State => "alarm"
  | Setting_State => "settings"
  end.

(** A touch sample [(x, y, z)]. *)
Definition Touch : Set := (Z * Z * Z)%type.

Definition touch_x (t : Touch) : Z := fst (fst t).
Definition touch_y (t : Touch) : Z := snd (fst t).

(** The four edges of a button dictionary.  The buttons of the time screen
    carry a fifth key, [next_state]: they are paired with it below. *)
Record Button : Set := mkButton {
  left : Z;
  top : Z;
  right : Z;
  bottom : Z
}.

(** What a text area is asked to show; the [%] formatting itself is left to
    the display. *)
Inductive Text : Set :=
| clock_text (hour minute : Z)        (* '%02d:%02d' *)
| alarm_text (hour minute : Z)        (* '%2d:%02d'  *)
| blank_text                          (* '     '     *)
| temperature_text (kelvin : Q) (celcius : bool).

(** The fields the weather branch extracts from the fetched payload. *)
Record Weather : Set := mkWeather {
  weather_icon_name : string;
  weather_temp : Q
}.

(** Elements of [pyportal.splash]. *)
Inductive Layer : Set :=
| base_layer (n : nat)
| text_area (owner : StateName) (slot : nat)
| weather_icon (owner : StateName)
| snooze_icon (owner : StateName).

(** Driver calls and transitions, as they are recorded in the log. *)
Inductive Event : Set :=
| ev_set_backlight (level : Q)
| ev_set_background (file : string)
| ev_set_text (owner : StateName) (slot : nat) (t : Text)
| ev_get_local_time
| ev_fetch
| ev_print_error
| ev_play_file (file : string)
| ev_snooze_icon_pop (owner : StateName)
| ev_snooze_icon_append (owner : StateName)
| ev_weather_icon_pop (owner : StateName)
| ev_weather_icon_append (owner : StateName) (file : string)
| ev_file_close (file : string)
| ev_file_open (file : string)
| ev_display_refresh
| ev_exit (s : StateName)
| ev_enter (s : StateName).

(** The module-level variables of the "variables" section and of the state
    management section. *)
Record Globals : Set := mkGlobals {
  alarm_enabled : bool;
  alarm_armed : bool;
  alarm_hour : Z;
  alarm_minute : Z;
  snooze_time : option Q;
  update_time : option Q;
  low_light : bool;
  touched : bool;
  current_state : option StateName
}.

(** The attributes of a [Time_State] object that change after construction.
    [Mugsy_State] inherits them: the two objects have one copy each. *)
Record Time_Fields : Set := mkTimeFields {
  refresh_time : option Q;
  weather_refresh : option Q;
  icon_file : option string;
  snooze_file : option string
}.

Record Machine : Set := mkMachine {
  globals : Globals;
  time_self : Time_Fields;
  mugsy_self : Time_Fields;
  sound_alarm_time : option Q;        (* Alarm_State.sound_alarm_time *)
  previous_touch : option Touch;      (* Setting_State.previous_touch *)
  splash : list Layer;
  log : list Event
}.

(** What one pass of the main loop reads from outside. *)
Record Env : Set := mkEnv {
  touch_point : option Touch;         (* pyportal.touchscreen.touch_point *)
  monotonic : Q;                      (* time.monotonic() of the main loop *)
  snooze_button_value : bool;         (* snooze_button.value; pulled up *)
  light_value : Z;                    (* light.value *)
  local_time_ok : bool;               (* pyportal.get_local_time returns *)
  fetch_result : option Weather;      (* pyportal.fetch: None is RuntimeError *)
  localtime : Z * Z;                  (* time.localtime(): tm_hour, tm_min *)
  enter_clock : Q;                    (* time.monotonic() of Alarm_State.enter *)
  celcius : bool                      (* secrets['celcius'] *)
}.

(** ** Constants of the "variables" section *)

Definition alarm_background : string := "red_alert.bmp".
Definition alarm_file : string := "computer-alert20.wav".
Definition alarm_interval : Q := 5.
Definition snooze_interval : Q := 600.

(** ** Python truthiness and the comparisons on timestamps *)

(** [bool(x)] for a variable holding [None] or a float. *)
Definition truthy (x : option Q) : bool :=
  match x with
  | None => false
  | Some v => negb (Qeq_bool v 0)
  end.

Definition Qge_bool (a b : Q) : bool := Qle_bool b a.
Definition Qgt_bool (a b : Q) : bool := negb (Qle_bool a b).

(** [x and ((now - x) >= interval)] *)
Definition and_elapsed_ge (x : option Q) (now interval : Q) : bool :=
  match x with
  | None => false
  | Some v => negb (Qeq_bool v 0) && Qge_bool (now - v) interval
  end.

(** [x and ((now - x) > interval)] *)
Definition and_elapsed_gt (x : option Q) (now interval : Q) : bool :=
  match x with
  | None => false
  | Some v => negb (Qeq_bool v 0) && Qgt_bool (now - v) interval
  end.

(** [(not x) or ((now - x) > interval)], the test in front of the three
    periodic refreshes of [Time_State.tick]. *)
Definition not_or_elapsed_gt (x : option Q) (now interval : Q) : bool :=
  match x with
  | None => true
  | Some v => Qeq_bool v 0 || Qgt_bool (now - v) interval
  end.

(** [touch_in_button(t, b)] *)
Definition touch_in_button (t : Touch) (b : Button) : bool :=
  ((left b >=? touch_x t) && (touch_x t >=? right b))
  && ((top b <=? touch_y t) && (touch_y t <=? bottom b)).

(** ** Field updates *)

Definition set_alarm_enabled (v : bool) (g : Globals) : Globals :=
  mkGlobals v (alarm_armed g) (alarm_hour g) (alarm_minute g) (snooze_time g)
            (update_time g) (low_light g) (touched g) (current_state g).

Definition set_alarm_armed (v : bool) (g : Globals) : Globals :=
  mkGlobals (alarm_enabled g) v (alarm_hour g) (alarm_minute g) (snooze_time g)
            (update_time g) (low_light g) (touched g) (current_state g).

Definition set_alarm_hour (v : Z) (g : Globals) : Globals :=
  mkGlobals (alarm_enabled g) (alarm_armed g) v (alarm_minute g) (snooze_time g)
            (update_time g) (low_light g) (touched g) (current_state g).

Definition set_alarm_minute (v : Z) (g : Globals) : Globals :=
  mkGlobals (alarm_enabled g) (alarm_armed g) (alarm_hour g) v (snooze_time g)
            (update_time g) (low_light g) (touched g) (current_state g).

Definition set_snooze_time (v : option Q) (g : Globals) : Globals :=
  mkGlobals (alarm_enabled g) (alarm_armed g) (alarm_hour g) (alarm_minute g) v
            (update_time g) (low_light g) (touched g) (current_state g).

Definition set_update_time (v : option Q) (g : Globals) : Globals :=
  mkGlobals (alarm_enabled g) (alarm_armed g) (alarm_hour g) (alarm_minute g)
            (snooze_time g) v (low_light g) (touched g) (current_state g).

Definition set_low_light (v : bool) (g : Globals) : Globals :=
  mkGlobals (alarm_enabled g) (alarm_armed g) (alarm_hour g) (alarm_minute g)
            (snooze_time g) (update_time g) v (touched g) (current_state g).

Definition set_touched (v : bool) (g : Globals) : Globals :=
  mkGlobals (alarm_enabled g) (alarm_armed g) (alarm_hour g) (alarm_minute g)
            (snooze_time g) (update_time g) (low_light g) v (current_state g).

Definition set_current_state (v : option StateName) (g : Globals) : Globals :=
  mkGlobals (alarm_enabled g) (alarm_armed g) (alarm_hour g) (alarm_minute g)
            (snooze_time g) (update_time g) (low_light g) (touched g) v.

Definition set_refresh_time (v : option Q) (f : Time_Fields) : Time_Fields :=
  mkTimeFields v (weather_refresh f) (icon_file f) (snooze_file f).

Definition set_weather_refresh (v : option Q) (f : Time_Fields) : Time_Fields :=
  mkTimeFields (refresh_time f) v (icon_file f) (snooze_file f).

Definition set_icon_file (v : option string) (f : Time_Fields) : Time_Fields :=
  mkTimeFields (refresh_time f) (weather_refresh f) v (snooze_file f).

Definition set_snooze_file (v : option string) (f : Time_Fields) : Time_Fields :=
  mkTimeFields (refresh_time f) (weather_refresh f) (icon_file f) v.

Definition with_globals (f : Globals -> Globals) (m : Machine) : Machine :=
  mkMachine (f (globals m)) (time_self m) (mugsy_self m) (sound_alarm_time m)
            (previous_touch m) (splash m) (log m).

Definition set_sound_alarm_time (v : option Q) (m : Machine) : Machine :=
  mkMachine (globals m) (time_self m) (mugsy_self m) v
            (previous_touch m) (splash m) (log m).

Definition set_previous_touch (v : option Touch) (m : Machine) : Machine :=
  mkMachine (globals m) (time_self m) (mugsy_self m) (sound_alarm_time m)
            v (splash m) (log m).

Definition with_splash (f : list Layer -> list Layer) (m : Machine) : Machine :=
  mkMachine (globals m) (time_self m) (mugsy_self m) (sound_alarm_time m)
            (previous_touch m) (f (splash m)) (log m).

Definition add_event (e : Event) (m : Machine) : Machine :=
  mkMachine (globals m) (time_self m) (mugsy_self m) (sound_alarm_time m)
            (previous_touch m) (splash m) (e :: log m).

(** The two objects of class [Time_State] (one of them of the subclass
    [Mugsy_State]): the [self] of the inherited methods. *)
Inductive TimeObject : Set :=
| time_object
| mugsy_object.

Definition object_name (self : TimeObject) : StateName :=
  match self with
  | time_object => Time_State
  | mugsy_object => Mugsy_State
  end.

Definition fields_of (self : TimeObject) (m : Machine) : Time_Fields :=
  match self with
  | time_object => time_self m
  | mugsy_object => mugsy_self m
  end.

Definition with_fields (self : TimeObject) (f : Time_Fields -> Time_Fields)
    (m : Machine) : Machine :=
  match self with
  | time_object =>
      mkMachine (globals m) (f (time_self m)) (mugsy_self m)
                (sound_alarm_time m) (previous_touch m) (splash m) (log m)
  | mugsy_object =>
      mkMachine (globals m) (time_self m) (f (mugsy_self m))
                (sound_alarm_time m) (previous_touch m) (splash m) (log m)
  end.

(** ** A state and exception monad for the statements of the handlers *)

Inductive Exn : Set :=
| RuntimeError
| AttributeError.

Definition is_RuntimeError (e : Exn) : bool :=
  match e with
  | RuntimeError => true
  | AttributeError => false
  end.

(** A statement either completes with a value or raises; the mutations made
    before a [raise] are kept, as in Python. *)
Inductive Result (A : Type) : Type :=
| Normal (a : A) (m : Machine)
| Raised (e : Exn) (m : Machine).

Arguments Normal {A} a m.
Arguments Raised {A} e m.

Definition Prog (A : Type) : Type := Machine -> Result A.

Definition ret {A : Type} (a : A) : Prog A := fun m => Normal a m.

Definition bind {A B : Type} (c : Prog A) (k : A -> Prog B) : Prog B :=
  fun m =>
    match c m with
    | Normal a m' => k a m'
    | Raised e m' => Raised e m'
    end.

Definition raise {A : Type} (e : Exn) : Prog A := fun m => Raised e m.

(** [try: body except <handles> as e: handler] *)
Definition try_except (body : Prog unit) (handles : Exn -> bool)
    (handler : Prog unit) : Prog unit :=
  fun m =>
    match body m with
    | Normal a m' => Normal a m'
    | Raised e m' => if handles e then handler m' else Raised e m'
    end.

Definition read {A : Type} (f : Machine -> A) : Prog A :=
  fun m => Normal (f m) m.

Definition update (f : Machine -> Machine) : Prog unit :=
  fun m => Normal tt (f m).

Definition emit (e : Event) : Prog unit := update (add_event e).

Definition global {A : Type} (f : Globals -> A) : Prog A :=
  read (fun m => f (globals m)).

Definition assign (f : Globals -> Globals) : Prog unit :=
  update (with_globals f).

Definition pass : Prog unit := ret tt.

Arguments ret {A} a m /.
Arguments bind {A B} c k m /.
Arguments raise {A} e m /.
Arguments try_except body handles handler m /.
Arguments read {A} f m /.
Arguments update f m /.
Arguments emit e m /.
Arguments global {A} f m /.
Arguments assign f m /.
Arguments pass m /.

Declare Scope prog_scope.
Delimit Scope prog_scope with prog.
Notation "x <- c ;; k" := (bind c (fun x => k))
  (at level 61, c at next level, right associativity) : prog_scope.
Notation "c ;; k" := (bind c (fun _ => k))
  (at level 61, right associativity) : prog_scope.
Local Open Scope prog_scope.

(** The machine a statement leaves behind, whether it returned or raised. *)
Definition final {A : Type} (r : Result A) : Machine :=
  match r with
  | Normal _ m => m
  | Raised _ m => m
  end.

Definition returned {A : Type} (r : Result A) : bool :=
  match r with
  | Normal _ _ => true
  | Raised _ _ => false
  end.

(** ** Functions *)

(** [clear_splash()]: pops [len(pyportal.splash) - 1] times. *)
Definition clear_splash : Prog unit :=
  update (with_splash (fun s => Nat.iter (List.length s - 1) (@removelast Layer) s)).

Definition display_refresh : Prog unit := emit ev_display_refresh.

(** ** Methods of the states *)

Definition background_day : string := "main_background_day.bmp".
Definition background_night : string := "main_background_night.bmp".
Definition settings_background : string := "settings_background.bmp".
Definition snooze_bitmap : string := "/icons/zzz.bmp".

(** [Time_State.buttons], each with its [next_state]. *)
Definition Time_State_buttons : list (Button * StateName) :=
  [ (mkButton 320 50 240 120, Setting_State);
    (mkButton 320 155 240 220, Mugsy_State) ].

(** [Setting_State.buttons], by index. *)
Definition button_on : Button := mkButton 320 30 240 93.
Definition button_return : Button := mkButton 320 98 240 152.
Definition button_off : Button := mkButton 320 155 240 220.
Definition button_hours : Button := mkButton 240 0 120 240.
Definition button_minutes : Button := mkButton 120 0 0 240.

(** [State.exit] *)
Definition State_exit : Prog unit := clear_splash.

(** [Alarm_State.exit] *)
Definition Alarm_State_exit : Prog unit :=
  State_exit ;;
  st <- global snooze_time ;;
  assign (set_alarm_armed (truthy st)).

(** [Time_State.adjust_backlight_based_on_light] *)
Definition adjust_backlight_based_on_light (env : Env) (force : bool)
  : Prog unit :=
  ll <- global low_light ;;
  if (light_value env <=? 1000) && (force || negb ll) then
    emit (ev_set_backlight 0.01) ;;
    emit (ev_set_background background_night) ;;
    assign (set_low_light true)
  else if force || ((light_value env >=? 2000) && ll) then
    emit (ev_set_backlight 1) ;;
    emit (ev_set_background background_day) ;;
    assign (set_low_light false)
  else pass.

(** [Time_State.enter], also the [enter] of [Mugsy_State]. *)
Definition Time_State_enter (self : TimeObject) (env : Env) : Prog unit :=
  let me := object_name self in
  adjust_backlight_based_on_light env true ;;
  update (with_splash (fun s =>
    (s ++ [text_area me 0; text_area me 1; text_area me 2])%list)) ;;
  update (with_splash (fun s => (s ++ [weather_icon me])%list)) ;;
  st <- global snooze_time ;;
  (if truthy st then
     sf <- read (fun m => snooze_file (fields_of self m)) ;;
     match sf with
     | Some f => emit (ev_file_close f)
     | None => pass
     end ;;
     emit (ev_file_open snooze_bitmap) ;;
     update (with_fields self (set_snooze_file (Some snooze_bitmap))) ;;
     emit (ev_snooze_icon_append me)
   else pass) ;;
  update (with_splash (fun s => (s ++ [snooze_icon me])%list)) ;;
  en <- global alarm_enabled ;;
  (if en then
     h <- global alarm_hour ;;
     mi <- global alarm_minute ;;
     emit (ev_set_text me 1 (alarm_text h mi))
   else emit (ev_set_text me 1 blank_text)) ;;
  display_refresh.

(** [Alarm_State.enter] *)
Definition Alarm_State_enter (env : Env) : Prog unit :=
  update (set_sound_alarm_time (Some (enter_clock env))) ;;
  emit (ev_set_backlight 1) ;;
  emit (ev_set_background alarm_background) ;;
  assign (set_low_light false) ;;
  display_refresh.

(** [Setting_State.enter] *)
Definition Setting_State_enter : Prog unit :=
  emit (ev_set_background settings_background) ;;
  update (with_splash (fun s => (s ++ [text_area Setting_State 0])%list)) ;;
  en <- global alarm_enabled ;;
  if en then
    h <- global alarm_hour ;;
    mi <- global alarm_minute ;;
    emit (ev_set_text Setting_State 0 (clock_text h mi))
  else emit (ev_set_text Setting_State 0 blank_text).

(** Method dispatch on the object stored under a key of [states]. *)
Definition exit_of (s : StateName) : Prog unit :=
  match s with
  | Alarm_State => Alarm_State_exit
  | Time_State | Mugsy_State | Setting_State => State_exit
  end.

Definition enter_of (s : StateName) (env : Env) : Prog unit :=
  match s with
  | Time_State => Time_State_enter time_object env
  | Mugsy_State => Time_State_enter mugsy_object env
  | Alarm_State => Alarm_State_enter env
  | Setting_State => Setting_State_enter
  end.

(** ** State management *)

(** [change_to_state(state_name)].  The two log entries bracket the calls of
    [exit] and [enter]. *)
Definition change_to_state (env : Env) (state_name : StateName) : Prog unit :=
  cur <- global current_state ;;
  match cur with
  | Some s => emit (ev_exit s) ;; exit_of s
  | None => pass
  end ;;
  assign (set_current_state (Some state_name)) ;;
  emit (ev_enter state_name) ;;
  enter_of state_name env.

(** ** Touch and tick handlers *)

(** [State.tick] *)
Definition State_tick : Prog unit := pass.

(** [State.touch] *)
Definition State_touch (t : option Touch) (touched : bool) : Prog bool :=
  ret (match t with Some _ => true | None => false end).

(** The [for] loop of [Time_State.touch]: the first button that contains the
    touch decides, and the [break] ends the search. *)
Fixpoint touch_buttons (env : Env) (t : Touch)
    (buttons : list (Button * StateName)) : Prog unit :=
  match buttons with
  | [] => pass
  | (b, target) :: rest =>
      if touch_in_button t b then change_to_state env target
      else touch_buttons env t rest
  end.

(** [Time_State.touch], inherited by [Mugsy_State]. *)
Definition Time_State_touch (env : Env) (t : option Touch) (touched : bool)
  : Prog bool :=
  match t with
  | Some p =>
      (if negb touched then touch_buttons env p Time_State_buttons else pass) ;;
      ret true
  | None => ret false
  end.

(** The branch of [Time_State.tick] under "only query the online time once
    per hour". *)
Definition refresh_local_time (self : TimeObject) (env : Env) (now : Q)
  : Prog unit :=
  rt <- read (fun m => refresh_time (fields_of self m)) ;;
  if not_or_elapsed_gt rt now 3600 then
    try_except
      (emit ev_get_local_time ;;
       (if local_time_ok env then pass else raise RuntimeError) ;;
       update (with_fields self (set_refresh_time (Some now))))
      is_RuntimeError
      (emit ev_print_error)
  else pass.

(** The branch of [Time_State.tick] under "only query the weather every 10
    minutes". *)
Definition refresh_weather (self : TimeObject) (env : Env) (now : Q)
  : Prog unit :=
  let me := object_name self in
  wr <- read (fun m => weather_refresh (fields_of self m)) ;;
  if not_or_elapsed_gt wr now 600 then
    try_except
      (emit ev_fetch ;;
       weather <- match fetch_result env with
                  | Some w => ret w
                  | None => raise RuntimeError
                  end ;;
       emit (ev_weather_icon_pop me) ;;
       let filename := ("/icons/" ++ weather_icon_name weather ++ ".bmp")%string in
       old <- read (fun m => icon_file (fields_of self m)) ;;
       match old with
       | Some f => emit (ev_file_close f)
       | None => pass
       end ;;
       emit (ev_file_open filename) ;;
       update (with_fields self (set_icon_file (Some filename))) ;;
       emit (ev_weather_icon_append me filename) ;;
       emit (ev_set_text me 2
               (temperature_text (weather_temp weather) (celcius env))) ;;
       update (with_fields self (set_weather_refresh (Some now))) ;;
       display_refresh)
      is_RuntimeError
      (emit ev_print_error)
  else pass.

(** The last block of [Time_State.tick]: the clock text and the alarm check. *)
Definition update_clock (self : TimeObject) (env : Env) (now : Q)
  : Prog unit :=
  ut <- global update_time ;;
  if not_or_elapsed_gt ut now 30 then
    assign (set_update_time (Some now)) ;;
    let '(tm_hour, tm_min) := localtime env in
    emit (ev_set_text (object_name self) 0 (clock_text tm_hour tm_min)) ;;
    display_refresh ;;
    st <- global snooze_time ;;
    if negb (truthy st) then
      ah <- global alarm_hour ;;
      am <- global alarm_minute ;;
      let minutes_now := tm_hour * 60 + tm_min in
      let minutes_alarm := ah * 60 + am in
      if minutes_now =? minutes_alarm then
        armed <- global alarm_armed ;;
        if armed then change_to_state env Alarm_State else pass
      else
        en <- global alarm_enabled ;;
        assign (set_alarm_armed en)
    else pass
  else pass.

(** The first block of [Time_State.tick]: "is the snooze button pushed?
    Cancel the snooze if so." *)
Definition cancel_snooze (self : TimeObject) (env : Env) : Prog unit :=
  if negb (snooze_button_value env) then
    st <- global snooze_time ;;
    (if truthy st then emit (ev_snooze_icon_pop (object_name self)) else pass) ;;
    assign (set_snooze_time None) ;;
    assign (set_alarm_armed false)
  else pass.

(** [Time_State.tick] *)
Definition Time_State_tick (self : TimeObject) (env : Env) (now : Q)
  : Prog unit :=
  cancel_snooze self env ;;
  st <- global snooze_time ;;
  if and_elapsed_ge st now snooze_interval then
    change_to_state env Alarm_State
  else
    adjust_backlight_based_on_light env false ;;
    refresh_local_time self env now ;;
    refresh_weather self env now ;;
    update_clock self env now.

(** [Mugsy_State.tick] *)
Definition Mugsy_State_tick (env : Env) (now : Q) : Prog unit :=
  change_to_state env Time_State.

(** [Alarm_State.tick] *)
Definition Alarm_State_tick (env : Env) (now : Q) : Prog unit :=
  if negb (snooze_button_value env) then
    assign (set_snooze_time (Some now)) ;;
    change_to_state env Time_State
  else
    sat <- read sound_alarm_time ;;
    if and_elapsed_gt sat now alarm_interval then
      update (set_sound_alarm_time (Some now)) ;;
      emit (ev_play_file alarm_file)
    else pass.

(** [Alarm_State.touch] *)
Definition Alarm_State_touch (env : Env) (t : option Touch) (touched : bool)
  : Prog bool :=
  match t with
  | Some _ =>
      (if negb touched then
         assign (set_snooze_time None) ;;
         change_to_state env Time_State
       else pass) ;;
      ret true
  | None => ret false
  end.

(** The two drag zones of [Setting_State.touch]: [t] is compared with the
    retained sample [prev]. *)
Definition drag_adjust (t prev : Touch) : Prog unit :=
  if touch_in_button t button_hours then
    (if touch_y t <? touch_y prev then
       h <- global alarm_hour ;; assign (set_alarm_hour ((h + 1) mod 24))
     else if touch_y t >? touch_y prev then
       h <- global alarm_hour ;; assign (set_alarm_hour ((h - 1) mod 24))
     else pass) ;;
    h <- global alarm_hour ;;
    mi <- global alarm_minute ;;
    emit (ev_set_text Setting_State 0 (clock_text h mi))
  else if touch_in_button t button_minutes then
    (if touch_y t <? touch_y prev then
       mi <- global alarm_minute ;; assign (set_alarm_minute ((mi + 1) mod 60))
     else if touch_y t >? touch_y prev then
       mi <- global alarm_minute ;; assign (set_alarm_minute ((mi - 1) mod 60))
     else pass) ;;
    h <- global alarm_hour ;;
    mi <- global alarm_minute ;;
    emit (ev_set_text Setting_State 0 (clock_text h mi))
  else pass.

(** [Setting_State.touch] *)
Definition Setting_State_touch (env : Env) (t : option Touch) (touched : bool)
  : Prog bool :=
  match t with
  | Some p =>
      (if touch_in_button p button_on then
         assign (set_alarm_enabled true) ;;
         h <- global alarm_hour ;;
         mi <- global alarm_minute ;;
         emit (ev_set_text Setting_State 0 (clock_text h mi))
       else if touch_in_button p button_return then
         change_to_state env Time_State
       else if touch_in_button p button_off then
         assign (set_alarm_enabled false) ;;
         emit (ev_set_text Setting_State 0 blank_text)
       else
         en <- global alarm_enabled ;;
         if en then
           prev <- read previous_touch ;;
           match prev with
           | None => update (set_previous_touch (Some p))
           | Some q => drag_adjust p q
           end
         else pass) ;;
      display_refresh ;;
      ret true
  | None =>
      update (set_previous_touch None) ;;
      ret false
  end.

(** Method dispatch for [current_state.touch] and [current_state.tick]. *)
Definition touch_of (s : StateName) (env : Env) (t : option Touch)
    (touched : bool) : Prog bool :=
  match s with
  | Time_State | Mugsy_State => Time_State_touch env t touched
  | Alarm_State => Alarm_State_touch env t touched
  | Setting_State => Setting_State_touch env t touched
  end.

Definition tick_of (s : StateName) (env : Env) (now : Q) : Prog unit :=
  match s with
  | Time_State => Time_State_tick time_object env now
  | Mugsy_State => Mugsy_State_tick env now
  | Alarm_State => Alarm_State_tick env now
  | Setting_State => State_tick
  end.

(** ** The main loop *)

(** The first statement of the loop body:
    [touched = current_state.touch(pyportal.touchscreen.touch_point, touched)]. *)
Definition loop_touch (env : Env) : Prog unit :=
  cur <- global current_state ;;
  match cur with
  | Some s =>
      was <- global touched ;;
      r <- touch_of s env (touch_point env) was ;;
      assign (set_touched r)
  | None => raise AttributeError
  end.

(** The second statement: [current_state.tick(time.monotonic())]. *)
Definition loop_tick (env : Env) : Prog unit :=
  cur <- global current_state ;;
  match cur with
  | Some s => tick_of s env (monotonic env)
  | None => raise AttributeError
  end.

(** One pass through the body of [while True]. *)
Definition loop_body (env : Env) : Prog unit :=
  loop_touch env ;; loop_tick env.

(** The passes of the loop over a finite prefix of its inputs. *)
Fixpoint main_loop (envs : list Env) : Prog unit :=
  match envs with
  | [] => pass
  | env :: rest => loop_body env ;; main_loop rest
  end.

(** The machine when the module has been imported up to the state
    management section; [splash0] is what [PyPortal()] put on the display. *)
Definition initial_machine (splash0 : list Layer) : Machine :=
  mkMachine
    (mkGlobals true true 23 20 None None false false None)
    (mkTimeFields None None None None)
    (mkTimeFields None None None None)
    None None splash0 [].

(** [clear_splash(); change_to_state("time")] *)
Definition startup (env : Env) : Prog unit :=
  clear_splash ;; change_to_state env Time_State.

(** ** Notions used to state the properties *)

(** Counting log entries. *)
Definition count (p : Event -> bool) (l : list Event) : nat :=
  List.length (filter p l).

Definition is_enter (e : Event) : bool :=
  match e with ev_enter _ => true | _ => false end.

Definition is_get_local_time (e : Event) : bool :=
  match e with ev_get_local_time => true | _ => false end.

Definition is_fetch (e : Event) : bool :=
  match e with ev_fetch => true | _ => false end.

Definition is_play_file (e : Event) : bool :=
  match e with ev_play_file _ => true | _ => false end.

(** Number of state changes made so far. *)
Definition transitions (m : Machine) : nat := count is_enter (log m).

(** The module-level variables of the alarm logic: every global except
    [low_light]. *)
Definition alarm_vars (g : Globals) :=
  (alarm_enabled g, alarm_armed g, alarm_hour g, alarm_minute g,
   snooze_time g, update_time g, touched g, current_state g).

(** The attributes of the state objects that hold timestamps or the retained
    touch sample. *)
Definition object_vars (m : Machine) :=
  (refresh_time (time_self m), weather_refresh (time_self m),
   refresh_time (mugsy_self m), weather_refresh (mugsy_self m),
   sound_alarm_time m, previous_touch m).

(** The comparison of the alarm check: [minutes_now == minutes_alarm]. *)
Definition minute_matches (env : Env) (g : Globals) : bool :=
  fst (localtime env) * 60 + snd (localtime env)
  =? alarm_hour g * 60 + alarm_minute g.

(** The alarm check of [update_clock] ends in [change_to_state('alarm')]. *)
Definition alarm_fires (env : Env) (now : Q) (g : Globals) : bool :=
  not_or_elapsed_gt (update_time g) now 30
  && negb (truthy (snooze_time g))
  && minute_matches env g
  && alarm_armed g.

(** The machine of a tick of the time screen when the three blocks between
    the snooze test and the clock block have run. *)
Definition after_refreshes (self : TimeObject) (env : Env) (now : Q)
    (m1 : Machine) : Machine :=
  final (refresh_weather self env now
    (final (refresh_local_time self env now
      (final (adjust_backlight_based_on_light env false m1))))).

(** The machine on which [change_to_state] calls the [enter] of the new
    state: the old state has exited and [current_state] is reassigned. *)
Definition before_enter (state_name : StateName) (m : Machine) : Machine :=
  add_event (ev_enter state_name)
    (with_globals (set_current_state (Some state_name))
       match current_state (globals m) with
       | Some s => final (exit_of s (add_event (ev_exit s) m))
       | None => m
       end).

(** The machine of [update_clock] when the clock text has been redrawn, in
    front of the alarm check. *)
Definition clock_redrawn (self : TimeObject) (env : Env) (now : Q)
    (m : Machine) : Machine :=
  add_event ev_display_refresh
    (add_event (ev_set_text (object_name self) 0
                  (clock_text (fst (localtime env)) (snd (localtime env))))
       (with_globals (set_update_time (Some now)) m)).

(** [bool(t)] for a touch sample. *)
Definition touch_present (t : option Touch) : bool :=
  match t with
  | Some _ => true
  | None => false
  end.

(** The machine of a pass between its two statements: the touch handler has
    returned and [touched] is assigned. *)
Definition after_touch (env : Env) (s : StateName) (m : Machine) : Machine :=
  with_globals (set_touched (touch_present (touch_point env)))
    (final (touch_of s env (touch_point env) (touched (globals m)) m)).


(** The machines the program can be in between two passes of its loop. *)
Definition reachable (m : Machine) : Prop :=
  exists splash0 env0 envs,
    (startup env0 ;; main_loop envs) (initial_machine splash0) = Normal tt m.

(** ** Scenarios *)

(** A pass during which nobody touches the device: no touch, the snooze
    button up, daylight, the network answering. *)
Definition quiet_env (now : Q) (hour minute : Z) : Env :=
  mkEnv None now true 1500 true (Some (mkWeather "01d" 290)) (hour, minute)
        now true.

Definition press_snooze (env : Env) : Env :=
  mkEnv (touch_point env) (monotonic env) false (light_value env)
        (local_time_ok env) (fetch_result env) (localtime env)
        (enter_clock env) (celcius env).

Definition touch_at (x y : Z) (env : Env) : Env :=
  mkEnv (Some (x, y, 1)) (monotonic env) (snooze_button_value env)
        (light_value env) (local_time_ok env) (fetch_result env)
        (localtime env) (enter_clock env) (celcius env).

Definition offline (env : Env) : Env :=
  mkEnv (touch_point env) (monotonic env) (snooze_button_value env)
        (light_value env) false None (localtime env)
        (enter_clock env) (celcius env).

(** The machine after [change_to_state("time")], started at 23:19. *)
Definition machine_started : Machine :=
  final (startup (quiet_env 5 23 19) (initial_machine [base_layer 0])).

(** The alarm goes off at 23:20, is snoozed two seconds later, and the alarm is
    then switched off on the settings screen while the snooze is pending. *)
Definition snoozed_then_disabled : list Env :=
  [ quiet_env 10 23 20;
    press_snooze (quiet_env 12 23 20);
    touch_at 300 60 (quiet_env 13 23 20);
    quiet_env 14 23 20;
    touch_at 300 200 (quiet_env 15 23 20);
    quiet_env 16 23 20;
    touch_at 300 100 (quiet_env 17 23 20) ].

Definition machine_snoozed_then_disabled : Machine :=
  final (main_loop snoozed_then_disabled machine_started).

(** The settings screen is opened at noon and a finger is put down in the
    minutes zone: the first sample of a drag is retained. *)
Definition drag_started : list Env :=
  [ touch_at 300 60 (quiet_env 10 12 0);
    quiet_env 11 12 0;
    touch_at 60 110 (quiet_env 12 12 0) ].

Definition machine_drag_started : Machine :=
  final (main_loop drag_started machine_started).

(** The settings button of the time screen has just been pressed: the
    settings screen is up and the finger is still on the glass. *)
Definition settings_opened : list Env :=
  [ touch_at 300 60 (quiet_env 10 12 0) ].

Definition machine_settings_opened : Machine :=
  final (main_loop settings_opened machine_started).

(** The alarm has just gone off: the pass at 23:20 that changed to the alarm
    state, with the clock read at 10 s on entry. *)
Definition alarm_raised : list Env := [ quiet_env 10 23 20 ].

Definition machine_alarm_raised : Machine :=
  final (main_loop alarm_raised machine_started).

(** The alarm went off at 23:20 and was snoozed at 12 s. *)
Definition snoozed : list Env :=
  [ quiet_env 10 23 20; press_snooze (quiet_env 12 23 20) ].

Definition machine_snoozed : Machine :=
  final (main_loop snoozed machine_started).

(** The first pass of the loop has run, at noon and with the clock at 10 s:
    the time and the weather have been fetched. *)
Definition first_pass : list Env := [ quiet_env 10 12 0 ].

Definition machine_first_pass : Machine :=
  final (main_loop first_pass machine_started).

(** ** Notions used by the further properties *)

(** The layers a state appends to [pyportal.splash] in its [enter]. *)
Definition layers_of (s : StateName) : list Layer :=
  match s with
  | Time_State | Mugsy_State =>
      [text_area s 0; text_area s 1; text_area s 2; weather_icon s;
       snooze_icon s]
  | Alarm_State => []
  | Setting_State => [text_area Setting_State 0]
  end.

Definition is_transition (e : Event) : bool :=
  match e with
  | ev_exit _ | ev_enter _ => true
  | _ => false
  end.

(** The calls of [exit] and [enter] made so far, most recent first. *)
Definition transition_log (m : Machine) : list Event :=
  filter is_transition (log m).

(** The calls [exit] and [enter] are paired as the protocol of
    [change_to_state] wants them: the first call enters a state, and every
    later [enter] follows the [exit] of the state entered before it. *)
Inductive well_paired : option StateName -> list Event -> Prop :=
| paired_nothing : well_paired None []
| paired_first (s : StateName) : well_paired (Some s) [ev_enter s]
| paired_change (c s : StateName) (l : list Event) :
    well_paired (Some c) l ->
    well_paired (Some s) (ev_enter s :: ev_exit c :: l).

Definition is_display_mode_call (e : Event) : bool :=
  match e with
  | ev_set_backlight _ | ev_set_background _ => true
  | _ => false
  end.

(** The machines the program can be in between two passes when
    [pyportal.splash] held [splash0] at import time. *)
Definition reachable_from (splash0 : list Layer) (m : Machine) : Prop :=
  exists env0 envs,
    (startup env0 ;; main_loop envs) (initial_machine splash0) = Normal tt m.

(** Which state is current, what is on the splash, and the calls of [exit]
    and [enter] so far. *)
Definition screen (m : Machine) :=
  (current_state (globals m), splash m, transition_log m).

(** The argument of the [change_to_state] call in the tick of each state. *)
Definition tick_target (s : StateName) : StateName :=
  match s with
  | Time_State => Alarm_State
  | Mugsy_State | Alarm_State | Setting_State => Time_State
  end.

(** The arguments of the [change_to_state] calls in the touch handler of each
    state. *)
Definition touch_targets (s : StateName) : list StateName :=
  match s with
  | Time_State | Mugsy_State => [Setting_State; Mugsy_State]
  | Alarm_State | Setting_State => [Time_State]
  end.

(** [m'] has the screen of [m], or the screen left by a call
    [change_to_state(target)], for one of the [targets], made on a machine
    that has the screen of [m]. *)
Definition keeps_or_changes (env : Env) (targets : list StateName)
    (m m' : Machine) : Prop :=
  screen m' = screen m \/
  exists target m1,
    In target targets /\
    screen m1 = screen m /\
    screen m' = screen (final (change_to_state env target m1)).

(** No pass of [envs] sees a touch begin: whenever a sample is present, the
    pass before it (for the first pass, the flag [was]) saw a touch too. *)
Fixpoint no_new_touch (was : bool) (envs : list Env) : Prop :=
  match envs with
  | [] => True
  | e :: rest =>
      (touch_point e = None \/ was = true) /\
      no_new_touch (touch_present (touch_point e)) rest
  end.

(** The sample of a pass, if any, does not take the return branch of
    [Setting_State.touch]. *)
Definition off_return (e : Env) : Prop :=
  match touch_point e with
  | Some p =>
      touch_in_button p button_on = true \/
      touch_in_button p button_return = false
  | None => True
  end.

(** The alarm went off at 23:20 and was cancelled by a touch one second
    later. *)
Definition alarm_cancelled : list Env :=
  [ quiet_env 10 23 20; touch_at 100 100 (quiet_env 11 23 20) ].

Definition machine_alarm_cancelled : Machine :=
  final (main_loop alarm_cancelled machine_started).

Definition is_file_open (e : Event) : bool :=
  match e with ev_file_open _ => true | _ => false end.

Definition is_file_close (e : Event) : bool :=
  match e with ev_file_close _ => true | _ => false end.

Definition held (f : option string) : nat :=
  match f with
  | Some _ => 1
  | None => 0
  end.

(** The files the attributes [icon_file] and [snooze_file] of the two
    [Time_State] objects refer to. *)
Definition handles (m : Machine) : nat :=
  held (icon_file (time_self m)) + held (snooze_file (time_self m))
  + held (icon_file (mugsy_self m)) + held (snooze_file (mugsy_self m)).

(** Every file opened and not closed is referred to by an attribute. *)
Definition files_balanced (m : Machine) : Prop :=
  count is_file_open (log m) = (count is_file_close (log m) + handles m)%nat.

(** What the file bookkeeping reads. *)
Definition files (m : Machine) :=
  (count is_file_open (log m), count is_file_close (log m), handles m).

(** * Properties *)

(** ** Reasoning about statements *)

Lemma bind_normal {A B : Type} (c : Prog A) (k : A -> Prog B) m a m1 :
  c m = Normal a m1 -> bind c k m = k a m1.
Proof. intros H. cbn. rewrite H. reflexivity. Qed.

(** ** Tactics *)

Ltac simp :=
  cbn -[Qle_bool Qeq_bool Qminus Qplus Z.mul Z.add Z.sub Z.modulo Z.eqb Z.leb
        Z.ltb Z.geb Z.gtb String.append touch_in_button truthy
        and_elapsed_ge and_elapsed_gt not_or_elapsed_gt Nat.iter removelast
        List.app change_to_state exit_of enter_of drag_adjust touch_buttons].

Ltac split_machine m :=
  let g := fresh "g" in
  destruct m as [g ? ? ? ? ? ?]; destruct g.

(** Case analysis on the leftmost test inside a condition. *)
Ltac destruct_atom c :=
  lazymatch c with
  | negb ?a => destruct_atom a
  | andb ?a _ => destruct_atom a
  | orb ?a _ => destruct_atom a
  | _ => destruct c eqn:?
  end.

(** Evaluate, split on the test that blocks evaluation, and repeat. *)
Ltac crunch :=
  repeat (simp;
    match goal with
    | |- context [if ?c then _ else _] => destruct_atom c
    | |- context [match ?x with Some _ => _ | None => _ end] => destruct x eqn:?
    end);
  simp.

(** ** The timestamp comparisons *)

Lemma Qgt_bool_iff (a b : Q) : Qgt_bool a b = true <-> (b < a)%Q.
Proof.
  unfold Qgt_bool. rewrite negb_true_iff, <- not_true_iff_false, Qle_bool_iff.
  split; [apply Qnot_le_lt | apply Qlt_not_le].
Qed.


Lemma truthy_Some (v : Q) : truthy (Some v) = true <-> ~ (v == 0)%Q.
Proof.
  unfold truthy. rewrite negb_true_iff, <- not_true_iff_false, Qeq_bool_iff.
  tauto.
Qed.

Lemma truthy_positive (v : Q) : (0 < v)%Q -> truthy (Some v) = true.
Proof. intros H. apply truthy_Some. intros E. rewrite E in H. lra. Qed.

Lemma not_or_elapsed_gt_iff (x : option Q) (now interval : Q) :
  not_or_elapsed_gt x now interval = true <->
  x = None \/ exists v, x = Some v /\ ((v == 0)%Q \/ (interval < now - v)%Q).
Proof.
  destruct x as [v|]; cbn [not_or_elapsed_gt].
  - rewrite orb_true_iff, Qeq_bool_iff, Qgt_bool_iff. split.
    + intros H. right. exists v. split; [reflexivity | exact H].
    + intros [H | (w & E & H)]; [discriminate | ]. injection E as ->. exact H.
  - split; [intros _; left; reflexivity | reflexivity].
Qed.


Lemma and_elapsed_ge_falsy (x : option Q) (now interval : Q) :
  truthy x = false -> and_elapsed_ge x now interval = false.
Proof.
  destruct x as [v|]; cbn [truthy and_elapsed_ge]; [ | reflexivity].
  intros ->. reflexivity.
Qed.

Lemma and_elapsed_gt_iff (x : option Q) (now interval : Q) :
  and_elapsed_gt x now interval = true <->
  exists v, x = Some v /\ ~ (v == 0)%Q /\ (interval < now - v)%Q.
Proof.
  destruct x as [v|]; cbn [and_elapsed_gt].
  - rewrite andb_true_iff, Qgt_bool_iff, negb_true_iff,
      <- not_true_iff_false, Qeq_bool_iff. split.
    + intros [H1 H2]. exists v. auto.
    + intros (w & E & H1 & H2). injection E as ->. auto.
  - split; [discriminate | intros (w & E & _); discriminate].
Qed.

Ltac use_alarm_vars H :=
  unfold alarm_vars in H; injection H as ? ? ? ? ? ? ? ?.

Ltac use_object_vars H :=
  unfold object_vars in H; injection H as ? ? ? ? ? ?.

(** ** [exit], [enter] and [change_to_state] *)

Ltac method m :=
  split_machine m;
  unfold exit_of, enter_of, Time_State_enter, Alarm_State_enter,
    Setting_State_enter, Alarm_State_exit, State_exit,
    adjust_backlight_based_on_light, clear_splash, display_refresh,
    alarm_vars, object_vars, transitions, count;
  repeat match goal with
         | s : StateName |- _ => destruct s
         | f : Time_Fields |- _ => destruct f
         end;
  crunch; try reflexivity.

Lemma exit_of_returns s m : exit_of s m = Normal tt (final (exit_of s m)).
Proof. method m. Qed.

(** Leaving the alarm state sets [alarm_armed] to [bool(snooze_time)]; the
    other [exit] methods leave the variables alone. *)
Lemma exit_of_globals s m :
  globals (final (exit_of s m)) =
  match s with
  | Alarm_State =>
      set_alarm_armed (truthy (snooze_time (globals m))) (globals m)
  | _ => globals m
  end.
Proof. method m. Qed.

Lemma exit_of_objects s m : object_vars (final (exit_of s m)) = object_vars m.
Proof. method m. Qed.

Lemma exit_of_transitions s m :
  transitions (final (exit_of s m)) = transitions m.
Proof. method m. Qed.

Lemma enter_of_returns s env m :
  enter_of s env m = Normal tt (final (enter_of s env m)).
Proof. method m. Qed.

Lemma enter_of_globals s env m :
  alarm_vars (globals (final (enter_of s env m))) = alarm_vars (globals m).
Proof. method m. Qed.

(** Entering the alarm state starts the repeat timer at the clock reading
    taken on entry. *)
Lemma enter_of_objects s env m :
  object_vars (final (enter_of s env m)) =
  (refresh_time (time_self m), weather_refresh (time_self m),
   refresh_time (mugsy_self m), weather_refresh (mugsy_self m),
   match s with
   | Alarm_State => Some (enter_clock env)
   | _ => sound_alarm_time m
   end,
   previous_touch m).
Proof. method m. Qed.

Lemma enter_of_transitions s env m :
  transitions (final (enter_of s env m)) = transitions m.
Proof. method m. Qed.

Lemma change_to_state_eq env s m :
  change_to_state env s m = enter_of s env (before_enter s m).
Proof.
  unfold change_to_state, before_enter. cbn [bind global read].
  destruct (current_state (globals m)) as [s'|].
  - cbn [bind emit update assign].
    rewrite (exit_of_returns s' (add_event (ev_exit s') m)).
    reflexivity.
  - reflexivity.
Qed.

Lemma change_to_state_returns env s m :
  change_to_state env s m = Normal tt (final (change_to_state env s m)).
Proof. rewrite change_to_state_eq. apply enter_of_returns. Qed.

(** What a state change does to the variables of the alarm logic: the new
    state is current, and leaving the alarm state sets [alarm_armed] to
    [bool(snooze_time)]. *)
Lemma change_to_state_globals env s m :
  let g := globals m in
  alarm_vars (globals (final (change_to_state env s m))) =
  (alarm_enabled g,
   match current_state g with
   | Some Alarm_State => truthy (snooze_time g)
   | _ => alarm_armed g
   end,
   alarm_hour g, alarm_minute g, snooze_time g, update_time g, touched g,
   Some s).
Proof.
  intros g. rewrite change_to_state_eq, enter_of_globals.
  unfold before_enter, g. destruct (current_state (globals m)) as [s'|].
  - cbn [globals with_globals add_event]. rewrite exit_of_globals.
    destruct s'; reflexivity.
  - reflexivity.
Qed.

Lemma change_to_state_objects env s m :
  object_vars (final (change_to_state env s m)) =
  (refresh_time (time_self m), weather_refresh (time_self m),
   refresh_time (mugsy_self m), weather_refresh (mugsy_self m),
   match s with
   | Alarm_State => Some (enter_clock env)
   | _ => sound_alarm_time m
   end,
   previous_touch m).
Proof.
  rewrite change_to_state_eq, enter_of_objects.
  unfold before_enter. destruct (current_state (globals m)) as [s'|].
  - pose proof (exit_of_objects s' (add_event (ev_exit s') m)) as H.
    use_object_vars H. cbn in *. destruct s; congruence.
  - reflexivity.
Qed.

Lemma change_to_state_transitions env s m :
  transitions (final (change_to_state env s m)) = S (transitions m).
Proof.
  rewrite change_to_state_eq, enter_of_transitions.
  unfold before_enter. destruct (current_state (globals m)) as [s'|].
  - change (S (transitions (final (exit_of s' (add_event (ev_exit s') m))))
            = S (transitions m)).
    rewrite exit_of_transitions. reflexivity.
  - reflexivity.
Qed.

(** ** The blocks of [Time_State.tick] *)

Ltac block m :=
  split_machine m;
  unfold cancel_snooze, adjust_backlight_based_on_light, refresh_local_time,
    refresh_weather, display_refresh, alarm_vars, object_vars, transitions,
    count;
  repeat match goal with
         | self : TimeObject |- _ => destruct self
         | f : Time_Fields |- _ => destruct f
         end;
  crunch; try reflexivity.

Lemma cancel_snooze_returns self env m :
  cancel_snooze self env m = Normal tt (final (cancel_snooze self env m)).
Proof. block m. Qed.

Lemma cancel_snooze_globals self env m :
  globals (final (cancel_snooze self env m)) =
  if snooze_button_value env then globals m
  else set_alarm_armed false (set_snooze_time None (globals m)).
Proof. block m. Qed.


Lemma cancel_snooze_transitions self env m :
  transitions (final (cancel_snooze self env m)) = transitions m.
Proof. block m. Qed.

Lemma adjust_backlight_returns env force m :
  adjust_backlight_based_on_light env force m =
  Normal tt (final (adjust_backlight_based_on_light env force m)).
Proof. block m. Qed.

Lemma adjust_backlight_globals env force m :
  alarm_vars (globals (final (adjust_backlight_based_on_light env force m))) =
  alarm_vars (globals m).
Proof. block m. Qed.

Lemma adjust_backlight_objects env force m :
  object_vars (final (adjust_backlight_based_on_light env force m)) =
  object_vars m.
Proof. block m. Qed.

Lemma adjust_backlight_transitions env force m :
  transitions (final (adjust_backlight_based_on_light env force m)) =
  transitions m.
Proof. block m. Qed.

(** The [try ... except RuntimeError] around the time query absorbs the
    failure: the block returns in every case. *)
Lemma refresh_local_time_returns self env now m :
  refresh_local_time self env now m =
  Normal tt (final (refresh_local_time self env now m)).
Proof. block m. Qed.

Lemma refresh_local_time_globals self env now m :
  globals (final (refresh_local_time self env now m)) = globals m.
Proof. block m. Qed.

(** [refresh_time] is stamped exactly when the query was due and returned. *)
Lemma refresh_local_time_stamp self env now m :
  refresh_time (fields_of self (final (refresh_local_time self env now m))) =
  if not_or_elapsed_gt (refresh_time (fields_of self m)) now 3600
     && local_time_ok env
  then Some now else refresh_time (fields_of self m).
Proof. block m. Qed.


Lemma refresh_local_time_alarm_objects self env now m :
  sound_alarm_time (final (refresh_local_time self env now m)) =
  sound_alarm_time m /\
  previous_touch (final (refresh_local_time self env now m)) =
  previous_touch m.
Proof. split; block m. Qed.

Lemma refresh_local_time_transitions self env now m :
  transitions (final (refresh_local_time self env now m)) = transitions m.
Proof. block m. Qed.

(** The query is issued exactly when the test in front of it holds. *)
Lemma refresh_local_time_calls self env now m :
  count is_get_local_time (log (final (refresh_local_time self env now m))) =
  ((if not_or_elapsed_gt (refresh_time (fields_of self m)) now 3600
    then 1 else 0)
   + count is_get_local_time (log m))%nat.
Proof. block m. Qed.

Lemma refresh_weather_returns self env now m :
  refresh_weather self env now m =
  Normal tt (final (refresh_weather self env now m)).
Proof. block m. Qed.

Lemma refresh_weather_globals self env now m :
  globals (final (refresh_weather self env now m)) = globals m.
Proof. block m. Qed.

Lemma refresh_weather_stamp self env now m :
  weather_refresh (fields_of self (final (refresh_weather self env now m))) =
  if not_or_elapsed_gt (weather_refresh (fields_of self m)) now 600
  then match fetch_result env with
       | Some _ => Some now
       | None => weather_refresh (fields_of self m)
       end
  else weather_refresh (fields_of self m).
Proof. block m. Qed.


Lemma refresh_weather_alarm_objects self env now m :
  sound_alarm_time (final (refresh_weather self env now m)) =
  sound_alarm_time m /\
  previous_touch (final (refresh_weather self env now m)) = previous_touch m.
Proof. split; block m. Qed.

Lemma refresh_weather_transitions self env now m :
  transitions (final (refresh_weather self env now m)) = transitions m.
Proof. block m. Qed.

Lemma refresh_weather_calls self env now m :
  count is_fetch (log (final (refresh_weather self env now m))) =
  ((if not_or_elapsed_gt (weather_refresh (fields_of self m)) now 600
    then 1 else 0)
   + count is_fetch (log m))%nat.
Proof. block m. Qed.

(** The last block, case by case. *)
Lemma update_clock_eq self env now m :
  update_clock self env now m =
  let g := globals m in
  let m1 := clock_redrawn self env now m in
  if not_or_elapsed_gt (update_time g) now 30 then
    if truthy (snooze_time g) then Normal tt m1
    else if minute_matches env g then
      if alarm_armed g then change_to_state env Alarm_State m1
      else Normal tt m1
    else Normal tt (with_globals (set_alarm_armed (alarm_enabled g)) m1)
  else Normal tt m.
Proof.
  unfold update_clock, clock_redrawn, minute_matches.
  destruct (localtime env) as [tm_hour tm_min].
  split_machine m. crunch; reflexivity.
Qed.

Lemma update_clock_returns self env now m :
  update_clock self env now m = Normal tt (final (update_clock self env now m)).
Proof.
  rewrite update_clock_eq. cbv zeta.
  repeat match goal with
         | |- context [if ?c then _ else _] => destruct c
         end;
    try reflexivity.
  apply change_to_state_returns.
Qed.

Lemma update_clock_closed self env now m :
  not_or_elapsed_gt (update_time (globals m)) now 30 = false ->
  update_clock self env now m = Normal tt m.
Proof. intros H. rewrite update_clock_eq. cbv zeta. rewrite H. reflexivity. Qed.

(** The variables of the alarm logic after the last block of the tick. *)
Lemma update_clock_globals self env now m :
  let g := globals m in
  alarm_vars (globals (final (update_clock self env now m))) =
  if not_or_elapsed_gt (update_time g) now 30 then
    if truthy (snooze_time g) then
      (alarm_enabled g, alarm_armed g, alarm_hour g, alarm_minute g,
       snooze_time g, Some now, touched g, current_state g)
    else if minute_matches env g then
      if alarm_armed g then
        (alarm_enabled g,
         match current_state g with Some Alarm_State => false | _ => true end,
         alarm_hour g, alarm_minute g, snooze_time g, Some now, touched g,
         Some Alarm_State)
      else
        (alarm_enabled g, false, alarm_hour g, alarm_minute g,
         snooze_time g, Some now, touched g, current_state g)
    else
      (alarm_enabled g, alarm_enabled g, alarm_hour g, alarm_minute g,
       snooze_time g, Some now, touched g, current_state g)
  else alarm_vars g.
Proof.
  cbv zeta. rewrite update_clock_eq. cbv zeta.
  destruct (not_or_elapsed_gt (update_time (globals m)) now 30);
    [ | reflexivity].
  destruct (truthy (snooze_time (globals m))) eqn:Hs; [reflexivity | ].
  destruct (minute_matches env (globals m)); [ | reflexivity].
  destruct (alarm_armed (globals m)) eqn:Ha.
  - rewrite change_to_state_globals. cbn. rewrite ?Hs, ?Ha.
    destruct (current_state (globals m)) as [[]|]; reflexivity.
  - unfold alarm_vars. cbn. rewrite Ha. reflexivity.
Qed.


Lemma update_clock_transitions self env now m :
  transitions (final (update_clock self env now m)) =
  ((if alarm_fires env now (globals m) then 1 else 0) + transitions m)%nat.
Proof.
  rewrite update_clock_eq. unfold alarm_fires. cbv zeta.
  destruct (not_or_elapsed_gt (update_time (globals m)) now 30);
    [ | reflexivity].
  destruct (truthy (snooze_time (globals m))); [reflexivity | ].
  destruct (minute_matches env (globals m)); [ | reflexivity].
  destruct (alarm_armed (globals m)); [ | reflexivity].
  rewrite change_to_state_transitions. reflexivity.
Qed.

(** ** [Time_State.tick] as the sequence of its blocks *)

Lemma bind_global {A B : Type} (f : Globals -> A) (k : A -> Prog B) m :
  bind (global f) k m = k (f (globals m)) m.
Proof. reflexivity. Qed.

Lemma Time_State_tick_eq self env now m :
  Time_State_tick self env now m =
  let m1 := final (cancel_snooze self env m) in
  if and_elapsed_ge (snooze_time (globals m1)) now snooze_interval
  then change_to_state env Alarm_State m1
  else update_clock self env now (after_refreshes self env now m1).
Proof.
  unfold Time_State_tick, after_refreshes.
  rewrite (bind_normal _ _ _ _ _ (cancel_snooze_returns self env m)).
  cbv zeta. generalize (final (cancel_snooze self env m)). intros m1.
  rewrite bind_global.
  destruct (and_elapsed_ge _ now snooze_interval); [reflexivity | ].
  rewrite (bind_normal _ _ _ _ _ (adjust_backlight_returns env false m1)).
  generalize (final (adjust_backlight_based_on_light env false m1)).
  intros m2.
  rewrite (bind_normal _ _ _ _ _ (refresh_local_time_returns self env now m2)).
  generalize (final (refresh_local_time self env now m2)). intros m3.
  rewrite (bind_normal _ _ _ _ _ (refresh_weather_returns self env now m3)).
  reflexivity.
Qed.

Lemma after_refreshes_globals self env now m1 :
  alarm_vars (globals (after_refreshes self env now m1)) =
  alarm_vars (globals m1).
Proof.
  unfold after_refreshes.
  rewrite refresh_weather_globals, refresh_local_time_globals.
  apply adjust_backlight_globals.
Qed.

Lemma after_refreshes_transitions self env now m1 :
  transitions (after_refreshes self env now m1) = transitions m1.
Proof.
  unfold after_refreshes.
  rewrite refresh_weather_transitions, refresh_local_time_transitions.
  apply adjust_backlight_transitions.
Qed.

Lemma after_refreshes_alarm_objects self env now m1 :
  sound_alarm_time (after_refreshes self env now m1) = sound_alarm_time m1 /\
  previous_touch (after_refreshes self env now m1) = previous_touch m1.
Proof.
  unfold after_refreshes.
  destruct (refresh_weather_alarm_objects self env now
              (final (refresh_local_time self env now
                 (final (adjust_backlight_based_on_light env false m1)))))
    as [-> ->].
  destruct (refresh_local_time_alarm_objects self env now
              (final (adjust_backlight_based_on_light env false m1)))
    as [-> ->].
  pose proof (adjust_backlight_objects env false m1) as H.
  use_object_vars H. split; assumption.
Qed.

(** The tick of the time screen never raises. *)
Lemma Time_State_tick_returns self env now m :
  Time_State_tick self env now m =
  Normal tt (final (Time_State_tick self env now m)).
Proof.
  rewrite Time_State_tick_eq. cbv zeta.
  destruct (and_elapsed_ge _ now snooze_interval).
  - apply change_to_state_returns.
  - apply update_clock_returns.
Qed.

(** The variables of the alarm logic after a whole tick of the time screen,
    in terms of their values [g1] behind the snooze-button block. *)
Lemma Time_State_tick_globals self env now m :
  let g1 := globals (final (cancel_snooze self env m)) in
  alarm_vars (globals (final (Time_State_tick self env now m))) =
  if and_elapsed_ge (snooze_time g1) now snooze_interval then
    (alarm_enabled g1,
     match current_state g1 with
     | Some Alarm_State => truthy (snooze_time g1)
     | _ => alarm_armed g1
     end,
     alarm_hour g1, alarm_minute g1, snooze_time g1, update_time g1,
     touched g1, Some Alarm_State)
  else if not_or_elapsed_gt (update_time g1) now 30 then
    if truthy (snooze_time g1) then
      (alarm_enabled g1, alarm_armed g1, alarm_hour g1, alarm_minute g1,
       snooze_time g1, Some now, touched g1, current_state g1)
    else if minute_matches env g1 then
      if alarm_armed g1 then
        (alarm_enabled g1,
         match current_state g1 with Some Alarm_State => false | _ => true end,
         alarm_hour g1, alarm_minute g1, snooze_time g1, Some now, touched g1,
         Some Alarm_State)
      else
        (alarm_enabled g1, false, alarm_hour g1, alarm_minute g1,
         snooze_time g1, Some now, touched g1, current_state g1)
    else
      (alarm_enabled g1, alarm_enabled g1, alarm_hour g1, alarm_minute g1,
       snooze_time g1, Some now, touched g1, current_state g1)
  else alarm_vars g1.
Proof.
  cbv zeta. rewrite Time_State_tick_eq. cbv zeta.
  set (m1 := final (cancel_snooze self env m)).
  destruct (and_elapsed_ge (snooze_time (globals m1)) now snooze_interval).
  - apply change_to_state_globals.
  - rewrite update_clock_globals. cbv zeta.
    pose proof (after_refreshes_globals self env now m1) as H.
    unfold alarm_vars at 1 in H. unfold minute_matches.
    destruct (globals (after_refreshes self env now m1)); cbn in H |- *.
    unfold alarm_vars in H. injection H as -> -> -> -> -> -> -> ->.
    reflexivity.
Qed.

Lemma cancel_snooze_snooze_time self env m :
  snooze_time (globals (final (cancel_snooze self env m))) =
  if snooze_button_value env then snooze_time (globals m) else None.
Proof.
  rewrite cancel_snooze_globals. destruct (snooze_button_value env); reflexivity.
Qed.

Lemma cancel_snooze_armed self env m :
  alarm_armed (globals (final (cancel_snooze self env m))) =
  snooze_button_value env && alarm_armed (globals m).
Proof.
  rewrite cancel_snooze_globals. destruct (snooze_button_value env); reflexivity.
Qed.

(** The snooze-button block leaves the other variables alone. *)
Lemma cancel_snooze_kept self env m :
  let g1 := globals (final (cancel_snooze self env m)) in
  alarm_enabled g1 = alarm_enabled (globals m) /\
  alarm_hour g1 = alarm_hour (globals m) /\
  alarm_minute g1 = alarm_minute (globals m) /\
  update_time g1 = update_time (globals m) /\
  touched g1 = touched (globals m) /\
  current_state g1 = current_state (globals m).
Proof.
  cbv zeta. rewrite cancel_snooze_globals.
  destruct (snooze_button_value env); repeat split.
Qed.

Lemma minute_matches_ext env g g' :
  alarm_hour g' = alarm_hour g -> alarm_minute g' = alarm_minute g ->
  minute_matches env g' = minute_matches env g.
Proof. unfold minute_matches. intros -> ->. reflexivity. Qed.

(** ** The alarm check of the time screen *)

(** C1, as amended.  On a tick of the time screen whose clock update is due
    ([update_time] falsy, or more than 30 s old) and on which no snooze is
    pending once the snooze-button block has run, the tick returns, and:
    if the displayed minute is the alarm's minute and the alarm is armed at
    that point, the machine changes to the alarm state; if the minute is a
    different one, [alarm_armed] becomes [alarm_enabled] and the state is
    kept. *)
Theorem clock_tick_alarm_check self env now m :
  let m1 := final (cancel_snooze self env m) in
  let m' := final (Time_State_tick self env now m) in
  not_or_elapsed_gt (update_time (globals m)) now 30 = true ->
  truthy (snooze_time (globals m1)) = false ->
  Time_State_tick self env now m = Normal tt m' /\
  (minute_matches env (globals m) = true ->
   alarm_armed (globals m1) = true ->
   current_state (globals m') = Some Alarm_State) /\
  (minute_matches env (globals m) = false ->
   alarm_armed (globals m') = alarm_enabled (globals m) /\
   current_state (globals m') = current_state (globals m)).
Proof.
  intros m1 m' Hgate Hsnooze.
  split; [apply Time_State_tick_returns | ].
  pose proof (Time_State_tick_globals self env now m) as H.
  cbv zeta in H. fold m1 m' in H.
  destruct (cancel_snooze_kept self env m) as (Hen & Hh & Hmi & Hut & _ & Hcs).
  fold m1 in Hen, Hh, Hmi, Hut, Hcs.
  rewrite (and_elapsed_ge_falsy _ now snooze_interval Hsnooze) in H.
  rewrite Hut, Hgate, Hsnooze in H.
  rewrite (minute_matches_ext env _ _ Hh Hmi) in H.
  split.
  - intros Hmatch Harmed. rewrite Hmatch, Harmed in H.
    use_alarm_vars H. assumption.
  - intros Hmatch. rewrite Hmatch in H.
    use_alarm_vars H. split; congruence.
Qed.

Lemma clock_tick_alarm_check_witness :
  current_state
    (globals (final (Time_State_tick time_object (quiet_env 10 23 20) 10%Q
                       machine_started)))
  = Some Alarm_State.
Proof.
  destruct (clock_tick_alarm_check time_object (quiet_env 10 23 20) 10%Q
              machine_started) as (_ & H & _).
  - vm_compute. reflexivity.
  - vm_compute. reflexivity.
  - apply H; vm_compute; reflexivity.
Defined.

Lemma machine_snoozed_then_disabled_reachable :
  reachable machine_snoozed_then_disabled.
Proof.
  exists [base_layer 0], (quiet_env 5 23 19), snoozed_then_disabled.
  vm_compute. reflexivity.
Qed.

(** C1, as stated, fails: with a snooze pending the alarm check is skipped as
    a whole, so a tick whose clock update is due and whose minute differs
    from the alarm's does not reset [alarm_armed] to [alarm_enabled].  The
    machine is the one reached by snoozing the alarm and then switching it
    off on the settings screen. *)
Lemma clock_tick_rearm_skipped_while_snoozed :
  ~ (forall env now m,
       reachable m ->
       current_state (globals m) = Some Time_State ->
       not_or_elapsed_gt (update_time (globals m)) now 30 = true ->
       minute_matches env (globals m) = false ->
       alarm_armed (globals (final (Time_State_tick time_object env now m))) =
       alarm_enabled (globals m)).
Proof.
  intros H.
  specialize (H (quiet_env 50 23 21) 50%Q machine_snoozed_then_disabled
                machine_snoozed_then_disabled_reachable).
  vm_compute in H.
  specialize (H eq_refl eq_refl eq_refl). discriminate H.
Qed.

(** C10.  A tick of the time screen on which the snooze button reads active
    (the pulled-up line is low) clears [snooze_time] and [alarm_armed] in its
    first block whether or not a snooze was pending; the tick then returns
    without changing state, [snooze_time] stays cleared, and [alarm_armed] is
    true afterwards only if the clock update was due, the minute differs from
    the alarm's and the alarm is enabled: in the matching minute the alarm
    cannot fire. *)
Theorem clock_tick_button_held self env now m :
  snooze_button_value env = false ->
  let m1 := final (cancel_snooze self env m) in
  let m' := final (Time_State_tick self env now m) in
  (snooze_time (globals m1) = None /\ alarm_armed (globals m1) = false) /\
  Time_State_tick self env now m = Normal tt m' /\
  snooze_time (globals m') = None /\
  current_state (globals m') = current_state (globals m) /\
  alarm_armed (globals m') =
    not_or_elapsed_gt (update_time (globals m)) now 30
    && negb (minute_matches env (globals m))
    && alarm_enabled (globals m).
Proof.
  intros Hbutton m1 m'.
  pose proof (cancel_snooze_snooze_time self env m) as Hs.
  pose proof (cancel_snooze_armed self env m) as Ha.
  rewrite Hbutton in Hs, Ha. cbn in Ha. fold m1 in Hs, Ha.
  split; [split; assumption | ].
  split; [apply Time_State_tick_returns | ].
  pose proof (Time_State_tick_globals self env now m) as H.
  cbv zeta in H. fold m1 m' in H.
  destruct (cancel_snooze_kept self env m) as (Hen & Hh & Hmi & Hut & _ & Hcs).
  fold m1 in Hen, Hh, Hmi, Hut, Hcs.
  rewrite Hs, Ha, Hut, Hen, Hcs, (minute_matches_ext env _ _ Hh Hmi) in H.
  cbn [and_elapsed_ge truthy] in H.
  destruct (not_or_elapsed_gt (update_time (globals m)) now 30).
  - destruct (minute_matches env (globals m));
      use_alarm_vars H; repeat split; cbn; congruence.
  - unfold alarm_vars in H. rewrite Hs, Ha, Hcs in H.
    use_alarm_vars H. repeat split; cbn; congruence.
Qed.

Lemma clock_tick_button_held_witness :
  let env := press_snooze (quiet_env 10 23 20) in
  let m' := final (Time_State_tick time_object env 10 machine_started) in
  current_state (globals m') = Some Time_State /\
  alarm_armed (globals m') = false.
Proof.
  intros env m'.
  destruct (clock_tick_button_held time_object env 10 machine_started)
    as (_ & _ & _ & Hcs & Ha).
  - reflexivity.
  - split; [exact Hcs | exact Ha].
Defined.

(** ** The other handlers, case by case *)

Lemma Mugsy_State_tick_eq env now m :
  Mugsy_State_tick env now m = change_to_state env Time_State m.
Proof. reflexivity. Qed.

Lemma Alarm_State_tick_eq env now m :
  Alarm_State_tick env now m =
  if snooze_button_value env then
    if and_elapsed_gt (sound_alarm_time m) now alarm_interval
    then Normal tt (add_event (ev_play_file alarm_file)
                      (set_sound_alarm_time (Some now) m))
    else Normal tt m
  else change_to_state env Time_State
         (with_globals (set_snooze_time (Some now)) m).
Proof.
  unfold Alarm_State_tick.
  destruct (snooze_button_value env); cbn [negb]; [ | reflexivity].
  cbn [bind read]. destruct (and_elapsed_gt _ _ _); reflexivity.
Qed.

Lemma touch_buttons_eq env p m :
  touch_buttons env p Time_State_buttons m =
  if touch_in_button p (mkButton 320 50 240 120)
  then change_to_state env Setting_State m
  else if touch_in_button p (mkButton 320 155 240 220)
  then change_to_state env Mugsy_State m
  else Normal tt m.
Proof.
  unfold Time_State_buttons. cbn [touch_buttons].
  repeat destruct (touch_in_button _ _); reflexivity.
Qed.

Lemma touch_buttons_returns env p m :
  touch_buttons env p Time_State_buttons m =
  Normal tt (final (touch_buttons env p Time_State_buttons m)).
Proof.
  rewrite touch_buttons_eq.
  repeat destruct (touch_in_button _ _);
    try apply change_to_state_returns; reflexivity.
Qed.

Lemma Time_State_touch_eq env t was m :
  Time_State_touch env t was m =
  match t with
  | Some p =>
      if was then Normal true m
      else Normal true (final (touch_buttons env p Time_State_buttons m))
  | None => Normal false m
  end.
Proof.
  unfold Time_State_touch. destruct t as [p|]; [ | reflexivity].
  destruct was; cbn [negb]; [reflexivity | ].
  rewrite (bind_normal _ _ _ _ _ (touch_buttons_returns env p m)).
  reflexivity.
Qed.

Lemma Alarm_State_touch_eq env t was m :
  Alarm_State_touch env t was m =
  match t with
  | Some _ =>
      if was then Normal true m
      else Normal true
             (final (change_to_state env Time_State
                       (with_globals (set_snooze_time None) m)))
  | None => Normal false m
  end.
Proof.
  unfold Alarm_State_touch. destruct t as [p|]; [ | reflexivity].
  destruct was; cbn [negb]; [reflexivity | ].
  cbn [bind assign update].
  rewrite (change_to_state_returns env Time_State
             (with_globals (set_snooze_time None) m)).
  reflexivity.
Qed.

(** The drag zones only ever write [alarm_hour] and [alarm_minute]. *)
Lemma drag_adjust_returns p q m :
  drag_adjust p q m = Normal tt (final (drag_adjust p q m)).
Proof. unfold drag_adjust. split_machine m. crunch; reflexivity. Qed.

Lemma drag_adjust_globals p q m :
  let g := globals m in
  let moved (v modulus : Z) :=
    if touch_y p <? touch_y q then (v + 1) mod modulus
    else if touch_y p >? touch_y q then (v - 1) mod modulus
    else v in
  alarm_vars (globals (final (drag_adjust p q m))) =
  (alarm_enabled g, alarm_armed g,
   (if touch_in_button p button_hours then moved (alarm_hour g) 24
    else alarm_hour g),
   (if touch_in_button p button_hours then alarm_minute g
    else if touch_in_button p button_minutes then moved (alarm_minute g) 60
    else alarm_minute g),
   snooze_time g, update_time g, touched g, current_state g).
Proof.
  unfold drag_adjust, alarm_vars. split_machine m. crunch; reflexivity.
Qed.

Lemma drag_adjust_objects p q m :
  object_vars (final (drag_adjust p q m)) = object_vars m.
Proof.
  unfold drag_adjust, object_vars. split_machine m. crunch; reflexivity.
Qed.

Lemma drag_adjust_transitions p q m :
  transitions (final (drag_adjust p q m)) = transitions m.
Proof.
  unfold drag_adjust, transitions, count. split_machine m. crunch; reflexivity.
Qed.

Lemma Setting_State_touch_eq env t was m :
  Setting_State_touch env t was m =
  match t with
  | Some p =>
      let g := globals m in
      Normal true
        (add_event ev_display_refresh
           (if touch_in_button p button_on then
              add_event (ev_set_text Setting_State 0
                           (clock_text (alarm_hour g) (alarm_minute g)))
                (with_globals (set_alarm_enabled true) m)
            else if touch_in_button p button_return then
              final (change_to_state env Time_State m)
            else if touch_in_button p button_off then
              add_event (ev_set_text Setting_State 0 blank_text)
                (with_globals (set_alarm_enabled false) m)
            else if alarm_enabled g then
              match previous_touch m with
              | None => set_previous_touch (Some p) m
              | Some q => final (drag_adjust p q m)
              end
            else m))
  | None => Normal false (set_previous_touch None m)
  end.
Proof.
  unfold Setting_State_touch. destruct t as [p|]; [ | reflexivity].
  cbv zeta.
  destruct (touch_in_button p button_on); [reflexivity | ].
  destruct (touch_in_button p button_return).
  { rewrite (bind_normal _ _ _ _ _ (change_to_state_returns env Time_State m)).
    reflexivity. }
  destruct (touch_in_button p button_off); [reflexivity | ].
  cbn [bind global read].
  destruct (alarm_enabled (globals m)); [ | reflexivity].
  cbn [bind read].
  destruct (previous_touch m) as [q|]; [ | reflexivity].
  rewrite (drag_adjust_returns p q m). reflexivity.
Qed.

(** ** Dragging on the settings screen *)

(** C9, as amended.  On the settings screen, with the alarm enabled, take a
    touch sample [p] that is on none of the three buttons (on, return, off).
    With a retained sample [q]: in the hour zone the hour goes up by one
    modulo 24 when [p] is above [q] (smaller y), down by one modulo 24 when
    below, and is kept when level, the minute being kept; outside the hour
    zone and inside the minute zone the same holds of the minute modulo 60,
    the hour being kept.  The two zones share the edge x = 120, which counts
    as hour zone.  With no retained sample both fields are kept and [p] is
    retained. *)
Theorem settings_drag_adjusts env p q was m :
  alarm_enabled (globals m) = true ->
  touch_in_button p button_on = false ->
  touch_in_button p button_return = false ->
  touch_in_button p button_off = false ->
  let moved (v modulus : Z) :=
    if touch_y p <? touch_y q then (v + 1) mod modulus
    else if touch_y p >? touch_y q then (v - 1) mod modulus
    else v in
  let g := globals m in
  let m' := final (Setting_State_touch env (Some p) was m) in
  Setting_State_touch env (Some p) was m = Normal true m' /\
  (previous_touch m = Some q ->
   alarm_hour (globals m') =
     (if touch_in_button p button_hours then moved (alarm_hour g) 24
      else alarm_hour g) /\
   alarm_minute (globals m') =
     (if touch_in_button p button_hours then alarm_minute g
      else if touch_in_button p button_minutes then moved (alarm_minute g) 60
      else alarm_minute g)) /\
  (previous_touch m = None ->
   alarm_hour (globals m') = alarm_hour g /\
   alarm_minute (globals m') = alarm_minute g /\
   previous_touch m' = Some p).
Proof.
  intros Hen Hon Hret Hoff moved g m'. subst m'.
  rewrite Setting_State_touch_eq. cbv zeta.
  rewrite Hon, Hret, Hoff, Hen. cbn [final].
  split; [reflexivity | split].
  - intros ->. pose proof (drag_adjust_globals p q m) as H. cbv zeta in H.
    use_alarm_vars H. cbn [globals add_event]. split; assumption.
  - intros ->. repeat split.
Qed.

Lemma settings_drag_adjusts_witness :
  alarm_minute
    (globals (final (Setting_State_touch (quiet_env 13 12 0)
                       (Some (60, 90, 1)) true
                       (with_globals (set_alarm_minute 59)
                          machine_drag_started))))
  = 0.
Proof.
  destruct (settings_drag_adjusts (quiet_env 13 12 0) (60, 90, 1) (60, 110, 1)
              true (with_globals (set_alarm_minute 59) machine_drag_started))
    as (_ & H & _);
    [reflexivity | reflexivity | reflexivity | reflexivity | ].
  destruct (H eq_refl) as [_ Hmin]. exact Hmin.
Defined.

Lemma machine_drag_started_reachable : reachable machine_drag_started.
Proof.
  exists [base_layer 0], (quiet_env 5 23 19), drag_started.
  vm_compute. reflexivity.
Qed.

(** C9, as stated, fails on the edge the two zones share.  The sample
    (120, 100) lies in the minute zone, above the retained sample (60, 110),
    but the hour zone is tested first and contains it too: the hour moves
    from 23 to 0 and the minute stays at 20. *)
Lemma settings_drag_shared_edge :
  ~ (forall env p q was m,
       reachable m ->
       current_state (globals m) = Some Setting_State ->
       alarm_enabled (globals m) = true ->
       previous_touch m = Some q ->
       touch_in_button p button_minutes = true ->
       touch_y p < touch_y q ->
       alarm_minute
         (globals (final (Setting_State_touch env (Some p) was m))) =
       (alarm_minute (globals m) + 1) mod 60).
Proof.
  intros H.
  specialize (H (quiet_env 13 12 0) (120, 100, 1) (60, 110, 1) true
                machine_drag_started machine_drag_started_reachable).
  vm_compute in H.
  specialize (H eq_refl eq_refl eq_refl eq_refl eq_refl). discriminate H.
Qed.

(** ** Touch handling *)




(** ** The repeating alert *)

(** C7, as amended.  A tick of the alarm screen on which the snooze button is
    not active returns; it plays the alarm file and stamps
    [sound_alarm_time] with [now] exactly when the stamp is set, is not 0 and
    is more than [alarm_interval] (5 s) older than [now]; otherwise it leaves
    the machine as it is.  Entering the alarm state sets the stamp to the
    clock reading taken on entry, so the first sound comes more than 5 s
    after entry and later ones more than 5 s apart. *)
Theorem alarm_tick_repeats env now m :
  snooze_button_value env = true ->
  let due :=
    exists v, sound_alarm_time m = Some v /\ ~ (v == 0)%Q /\
              (alarm_interval < now - v)%Q in
  let m' := final (Alarm_State_tick env now m) in
  Alarm_State_tick env now m = Normal tt m' /\
  (due ->
   m' = add_event (ev_play_file alarm_file)
          (set_sound_alarm_time (Some now) m)) /\
  (~ due -> m' = m) /\
  (forall env0 m0,
     sound_alarm_time (final (change_to_state env0 Alarm_State m0)) =
     Some (enter_clock env0)).
Proof.
  intros Hbutton due m'. subst m'.
  rewrite Alarm_State_tick_eq, Hbutton.
  pose proof (and_elapsed_gt_iff (sound_alarm_time m) now alarm_interval) as E.
  fold due in E.
  destruct (and_elapsed_gt (sound_alarm_time m) now alarm_interval).
  - repeat split.
    + intros Hn. exfalso. apply Hn, E. reflexivity.
    + intros env0 m0. pose proof (change_to_state_objects env0 Alarm_State m0) as H.
      use_object_vars H. assumption.
  - repeat split.
    + intros Hd. apply E in Hd. discriminate Hd.
    + intros env0 m0. pose proof (change_to_state_objects env0 Alarm_State m0) as H.
      use_object_vars H. assumption.
Qed.

Lemma alarm_tick_repeats_witness :
  count is_play_file
    (log (final (Alarm_State_tick (quiet_env 16 23 20) 16
                   machine_alarm_raised)))
  = 1%nat.
Proof.
  destruct (alarm_tick_repeats (quiet_env 16 23 20) 16 machine_alarm_raised)
    as (_ & H & _); [reflexivity | ].
  rewrite H; [reflexivity | ].
  exists 10%Q. split; [reflexivity | split].
  - intros E. discriminate E.
  - reflexivity.
Defined.

Lemma machine_started_reachable : reachable machine_started.
Proof.
  exists [base_layer 0], (quiet_env 5 23 19), [].
  vm_compute. reflexivity.
Qed.

(** C7, as stated, fails on the first tick after entry.  The alarm state is
    entered at 23:20 with the clock at 10 s; on the tick of the next pass, one
    second later and with the snooze button up, nothing is played. *)
Lemma alarm_first_tick_is_silent :
  ~ (forall env0 env m0,
       reachable m0 ->
       current_state (globals m0) = Some Time_State ->
       current_state (globals (final (loop_body env0 m0))) = Some Alarm_State ->
       snooze_button_value env = true ->
       count is_play_file
         (log (final (Alarm_State_tick env (monotonic env)
                        (final (loop_body env0 m0))))) =
       S (count is_play_file (log (final (loop_body env0 m0))))).
Proof.
  intros H.
  specialize (H (quiet_env 10 23 20) (quiet_env 11 23 20) machine_started
                machine_started_reachable).
  vm_compute in H.
  specialize (H eq_refl eq_refl eq_refl). discriminate H.
Qed.

(** ** Every handler returns, keeps a current state and changes state at
    most once *)

Lemma change_to_state_snooze_time env s m :
  snooze_time (globals (final (change_to_state env s m))) =
  snooze_time (globals m).
Proof.
  pose proof (change_to_state_globals env s m) as H. cbv zeta in H.
  use_alarm_vars H. assumption.
Qed.

Lemma change_to_state_current env s m :
  current_state (globals (final (change_to_state env s m))) = Some s.
Proof.
  pose proof (change_to_state_globals env s m) as H. cbv zeta in H.
  use_alarm_vars H. assumption.
Qed.

Lemma Alarm_State_tick_returns env now m :
  Alarm_State_tick env now m = Normal tt (final (Alarm_State_tick env now m)).
Proof.
  rewrite Alarm_State_tick_eq.
  destruct (snooze_button_value env).
  - destruct (and_elapsed_gt _ _ _); reflexivity.
  - apply change_to_state_returns.
Qed.

Lemma tick_of_returns s env now m :
  tick_of s env now m = Normal tt (final (tick_of s env now m)).
Proof.
  destruct s; cbn [tick_of].
  - apply Time_State_tick_returns.
  - apply change_to_state_returns.
  - apply Alarm_State_tick_returns.
  - reflexivity.
Qed.

Lemma touch_of_returns s env t was m :
  touch_of s env t was m =
  Normal (touch_present t) (final (touch_of s env t was m)).
Proof.
  destruct s; cbn [touch_of];
    rewrite ?Time_State_touch_eq, ?Alarm_State_touch_eq,
      ?Setting_State_touch_eq;
    destruct t; try destruct was; reflexivity.
Qed.

(** [snooze_time] across a touch handler: only a new touch on the alarm
    screen writes it, and it writes [None]. *)
Lemma touch_of_snooze_time s env t was m :
  snooze_time (globals (final (touch_of s env t was m))) =
  match s, t, was with
  | Alarm_State, Some _, false => None
  | _, _, _ => snooze_time (globals m)
  end.
Proof.
  assert (Hb : forall p,
             snooze_time (globals (final (touch_buttons env p
                                            Time_State_buttons m))) =
             snooze_time (globals m)).
  { intros p. rewrite touch_buttons_eq.
    repeat destruct (touch_in_button _ _);
      rewrite ?change_to_state_snooze_time; reflexivity. }
  destruct s; cbn [touch_of];
    rewrite ?Time_State_touch_eq, ?Alarm_State_touch_eq,
      ?Setting_State_touch_eq;
    destruct t as [p|]; try destruct was; cbn [final]; auto.
  - rewrite change_to_state_snooze_time. reflexivity.
  - cbv zeta. cbn [globals add_event].
    repeat destruct (touch_in_button p _);
      rewrite ?change_to_state_snooze_time; try reflexivity.
    destruct (alarm_enabled (globals m)); [ | reflexivity].
    destruct (previous_touch m) as [q|]; [ | reflexivity].
    pose proof (drag_adjust_globals p q m) as H. cbv zeta in H.
    use_alarm_vars H. assumption.
  - cbv zeta. cbn [globals add_event].
    repeat destruct (touch_in_button p _);
      rewrite ?change_to_state_snooze_time; try reflexivity.
    destruct (alarm_enabled (globals m)); [ | reflexivity].
    destruct (previous_touch m) as [q|]; [ | reflexivity].
    pose proof (drag_adjust_globals p q m) as H. cbv zeta in H.
    use_alarm_vars H. assumption.
Qed.

(** [snooze_time] across a tick: the time screen clears it when the snooze
    button is down, the alarm screen sets it to [now] when the button is down,
    and nothing else writes it. *)
Lemma tick_of_snooze_time s env now m :
  snooze_time (globals (final (tick_of s env now m))) =
  match s with
  | Time_State =>
      if snooze_button_value env then snooze_time (globals m) else None
  | Alarm_State =>
      if snooze_button_value env then snooze_time (globals m) else Some now
  | Mugsy_State | Setting_State => snooze_time (globals m)
  end.
Proof.
  destruct s; cbn [tick_of].
  - pose proof (Time_State_tick_globals time_object env now m) as H.
    cbv zeta in H.
    rewrite <- (cancel_snooze_snooze_time time_object env m).
    repeat match type of H with
           | context [if ?c then _ else _] => destruct c
           end;
      use_alarm_vars H; assumption.
  - apply change_to_state_snooze_time.
  - rewrite Alarm_State_tick_eq. destruct (snooze_button_value env).
    + destruct (and_elapsed_gt _ _ _); reflexivity.
    + rewrite change_to_state_snooze_time. reflexivity.
  - reflexivity.
Qed.







(** A handler that starts with a current state ends with one. *)
Lemma touch_of_current s env t was m :
  current_state (globals m) <> None ->
  current_state (globals (final (touch_of s env t was m))) <> None.
Proof.
  intros Hm.
  assert (Hb : forall p,
             current_state (globals (final (touch_buttons env p
                                              Time_State_buttons m))) <> None).
  { intros p. rewrite touch_buttons_eq.
    repeat destruct (touch_in_button _ _);
      rewrite ?change_to_state_current; cbn [final]; congruence. }
  destruct s; cbn [touch_of];
    rewrite ?Time_State_touch_eq, ?Alarm_State_touch_eq,
      ?Setting_State_touch_eq;
    destruct t as [p|]; try destruct was; cbn [final]; auto;
    rewrite ?change_to_state_current; try congruence.
  all: cbv zeta; cbn [globals add_event];
    repeat destruct (touch_in_button p _);
    rewrite ?change_to_state_current; try congruence; try assumption;
    destruct (alarm_enabled (globals m)); try assumption;
    destruct (previous_touch m) as [q|]; try assumption;
    pose proof (drag_adjust_globals p q m) as H; cbv zeta in H;
    use_alarm_vars H; congruence.
Qed.

Lemma tick_of_current s env now m :
  current_state (globals m) <> None ->
  current_state (globals (final (tick_of s env now m))) <> None.
Proof.
  intros Hm. destruct s; cbn [tick_of].
  - pose proof (Time_State_tick_globals time_object env now m) as H.
    cbv zeta in H.
    destruct (cancel_snooze_kept time_object env m) as (_ & _ & _ & _ & _ & Hcs).
    repeat match type of H with
           | context [if ?c then _ else _] => destruct c
           end;
      use_alarm_vars H; congruence.
  - unfold Mugsy_State_tick. rewrite change_to_state_current. congruence.
  - rewrite Alarm_State_tick_eq. destruct (snooze_button_value env).
    + destruct (and_elapsed_gt _ _ _); assumption.
    + rewrite change_to_state_current. congruence.
  - assumption.
Qed.

(** ** One pass of the loop *)

Lemma loop_touch_eq env s m :
  current_state (globals m) = Some s ->
  loop_touch env m = Normal tt (after_touch env s m).
Proof.
  intros Hs. unfold loop_touch, after_touch.
  rewrite bind_global, Hs, bind_global.
  rewrite (bind_normal _ _ _ _ _
             (touch_of_returns s env (touch_point env) (touched (globals m)) m)).
  reflexivity.
Qed.

Lemma loop_tick_eq env s m :
  current_state (globals m) = Some s ->
  loop_tick env m = tick_of s env (monotonic env) m.
Proof. intros Hs. unfold loop_tick. rewrite bind_global, Hs. reflexivity. Qed.

Lemma after_touch_current env s m :
  current_state (globals m) <> None ->
  current_state (globals (after_touch env s m)) <> None.
Proof. intros H. unfold after_touch. cbn. apply touch_of_current, H. Qed.

(** A pass that starts with a current state returns and ends with one: the
    loop never stops on an exception. *)
Lemma loop_body_returns env m :
  current_state (globals m) <> None ->
  loop_body env m = Normal tt (final (loop_body env m)) /\
  current_state (globals (final (loop_body env m))) <> None.
Proof.
  intros Hm. destruct (current_state (globals m)) as [s|] eqn:Hs;
    [ | congruence].
  unfold loop_body.
  rewrite (bind_normal _ _ _ _ _ (loop_touch_eq env s m Hs)).
  pose proof (after_touch_current env s m) as Hc. rewrite Hs in Hc.
  specialize (Hc Hm).
  destruct (current_state (globals (after_touch env s m))) as [s'|] eqn:Hs';
    [ | congruence].
  rewrite (loop_tick_eq env s' _ Hs').
  split; [apply tick_of_returns | ].
  apply tick_of_current. congruence.
Qed.

Lemma main_loop_returns envs m :
  current_state (globals m) <> None ->
  main_loop envs m = Normal tt (final (main_loop envs m)) /\
  current_state (globals (final (main_loop envs m))) <> None.
Proof.
  revert m. induction envs as [|env rest IH]; intros m Hm.
  - split; [reflexivity | exact Hm].
  - destruct (loop_body_returns env m Hm) as [Hr Hc].
    cbn [main_loop].
    rewrite (bind_normal _ _ _ _ _ Hr). apply IH, Hc.
Qed.


(** ** State changes per pass *)



(** ** Who writes [snooze_time] *)

(** C2, as amended.  Across any handler [snooze_time] is written in three
    places only: the tick of the alarm screen sets it to [now] when the
    snooze button is down; the tick of the time screen clears it when the
    snooze button is down; a new touch on the alarm screen clears it.  The
    settings and action-trigger states never write it.  When a pending snooze
    has run out, the tick of the time screen changes to the alarm state and
    leaves [snooze_time] as it is. *)
Theorem snooze_time_writes env m :
  (forall s t was,
     snooze_time (globals (final (touch_of s env t was m))) =
     match s, t, was with
     | Alarm_State, Some _, false => None
     | _, _, _ => snooze_time (globals m)
     end) /\
  (forall s now,
     snooze_time (globals (final (tick_of s env now m))) =
     match s with
     | Time_State =>
         if snooze_button_value env then snooze_time (globals m) else None
     | Alarm_State =>
         if snooze_button_value env then snooze_time (globals m) else Some now
     | Mugsy_State | Setting_State => snooze_time (globals m)
     end) /\
  (forall now,
     snooze_button_value env = true ->
     and_elapsed_ge (snooze_time (globals m)) now snooze_interval = true ->
     current_state (globals (final (tick_of Time_State env now m))) =
       Some Alarm_State /\
     snooze_time (globals (final (tick_of Time_State env now m))) =
       snooze_time (globals m)).
Proof.
  split; [ | split].
  - intros s t was. apply touch_of_snooze_time.
  - intros s now. apply tick_of_snooze_time.
  - intros now Hbutton Hdue. split.
    + cbn [tick_of].
      pose proof (Time_State_tick_globals time_object env now m) as H.
      cbv zeta in H.
      rewrite cancel_snooze_snooze_time, Hbutton, Hdue in H.
      use_alarm_vars H. assumption.
    + rewrite tick_of_snooze_time, Hbutton. reflexivity.
Qed.

Lemma machine_snoozed_reachable : reachable machine_snoozed.
Proof.
  exists [base_layer 0], (quiet_env 5 23 19), snoozed.
  vm_compute. reflexivity.
Qed.

(** C2, as stated, fails: when the snooze runs out the alarm is raised again
    and [snooze_time] is not cleared.  The snooze was started at 12 s; the
    tick at 612 s changes to the alarm state with [snooze_time] still set. *)
Lemma snooze_time_kept_when_alarm_returns :
  ~ (forall env now m,
       reachable m ->
       current_state (globals m) = Some Time_State ->
       snooze_button_value env = true ->
       and_elapsed_ge (snooze_time (globals m)) now snooze_interval = true ->
       snooze_time (globals (final (tick_of Time_State env now m))) = None).
Proof.
  intros H.
  specialize (H (quiet_env 612 23 30) 612%Q machine_snoozed
                machine_snoozed_reachable).
  vm_compute in H.
  specialize (H eq_refl eq_refl eq_refl). discriminate H.
Qed.

(** ** The refresh stamps *)





(** ** The test in front of the periodic refreshes *)

(** C4, as amended.  The test in front of the time query (interval 3600 s),
    of the weather fetch (600 s) and of the clock update (30 s) holds if and
    only if the stamp is absent, or is the number 0, or is older than the
    interval by strictly more than nothing: [now - stamp > interval].  The
    query, the fetch and the clock update run exactly when their test holds,
    and a test that fails leaves the machine as it is, so asking again with
    the same stamp and clock gives the same answer. *)
Theorem periodic_refresh_test self env now m :
  (forall x now interval,
     not_or_elapsed_gt x now interval = true <->
     x = None \/
     exists v, x = Some v /\ ((v == 0)%Q \/ (interval < now - v)%Q)) /\
  (count is_get_local_time (log (final (refresh_local_time self env now m))) =
   (if not_or_elapsed_gt (refresh_time (fields_of self m)) now 3600
    then 1 else 0) + count is_get_local_time (log m))%nat /\
  (count is_fetch (log (final (refresh_weather self env now m))) =
   (if not_or_elapsed_gt (weather_refresh (fields_of self m)) now 600
    then 1 else 0) + count is_fetch (log m))%nat /\
  update_time (globals (final (update_clock self env now m))) =
    (if not_or_elapsed_gt (update_time (globals m)) now 30
     then Some now else update_time (globals m)) /\
  (not_or_elapsed_gt (refresh_time (fields_of self m)) now 3600 = false ->
   refresh_local_time self env now m = Normal tt m) /\
  (not_or_elapsed_gt (weather_refresh (fields_of self m)) now 600 = false ->
   refresh_weather self env now m = Normal tt m) /\
  (not_or_elapsed_gt (update_time (globals m)) now 30 = false ->
   update_clock self env now m = Normal tt m).
Proof.
  split; [intros x n i; apply not_or_elapsed_gt_iff | ].
  split; [apply refresh_local_time_calls | ].
  split; [apply refresh_weather_calls | ].
  split.
  { pose proof (update_clock_globals self env now m) as H. cbv zeta in H.
    repeat match type of H with
           | context [if ?c then _ else _] => destruct c
           end;
      use_alarm_vars H; assumption. }
  split; [ | split].
  - intros H. unfold refresh_local_time. cbn [bind read]. rewrite H.
    reflexivity.
  - intros H. unfold refresh_weather. cbn [bind read]. rewrite H.
    reflexivity.
  - apply update_clock_closed.
Qed.

Lemma machine_first_pass_reachable : reachable machine_first_pass.
Proof.
  exists [base_layer 0], (quiet_env 5 23 19), first_pass.
  vm_compute. reflexivity.
Qed.

(** C4, as stated, fails at the boundary: the comparison is strict.  The
    time was fetched with the clock at 10 s; with the clock at 3610 s, exactly
    one interval later, the query is not issued. *)
Lemma refresh_not_due_at_exact_interval :
  ~ (forall env now m v,
       reachable m ->
       refresh_time (time_self m) = Some v ->
       (3600 <= now - v)%Q ->
       count is_get_local_time
         (log (final (refresh_local_time time_object env now m))) =
       S (count is_get_local_time (log m))).
Proof.
  intros H.
  specialize (H (quiet_env 3610 13 0) 3610%Q machine_first_pass 10%Q
                machine_first_pass_reachable eq_refl).
  assert (Hle : (3600 <= 3610 - 10)%Q) by (vm_compute; discriminate).
  specialize (H Hle). vm_compute in H. discriminate H.
Qed.

(** ** Snoozing *)








Lemma machine_alarm_raised_reachable : reachable machine_alarm_raised.
Proof.
  exists [base_layer 0], (quiet_env 5 23 19), alarm_raised.
  vm_compute. reflexivity.
Qed.


(** ** A tick without network *)

(** With the network down on the very first tick, both calls raise, both are
    reported, neither stamp is set, and the tick still redraws the clock. *)
Example offline_first_tick :
  let r := Time_State_tick time_object (offline (quiet_env 10 12 0)) 10
             machine_started in
  returned r = true /\
  refresh_time (time_self (final r)) = None /\
  weather_refresh (time_self (final r)) = None /\
  update_time (globals (final r)) = Some 10%Q /\
  count (fun e => match e with ev_print_error => true | _ => false end)
        (log (final r)) = 2%nat.
Proof. vm_compute. repeat split. Qed.

(** * Further properties *)

(** ** [clear_splash] *)

Lemma iter_removelast {A : Type} (n : nat) (l : list A) :
  Nat.iter n (@removelast A) l = firstn (List.length l - n) l.
Proof.
  induction n as [|n IH].
  - rewrite Nat.sub_0_r. symmetry. apply firstn_all.
  - rewrite Nat.iter_succ, IH.
    destruct (List.length l - n)%nat as [|k] eqn:E.
    + replace (List.length l - S n)%nat with 0%nat by lia. reflexivity.
    + replace (List.length l - S n)%nat with k by lia.
      apply removelast_firstn. lia.
Qed.

Lemma pop_all_but_first {A : Type} (l : list A) :
  Nat.iter (List.length l - 1) (@removelast A) l = firstn 1 l.
Proof.
  rewrite iter_removelast. destruct l as [|a l]; [reflexivity | ].
  cbn [List.length]. f_equal. lia.
Qed.

Lemma clear_splash_firstn m :
  clear_splash m = Normal tt (with_splash (fun s => firstn 1 s) m).
Proof.
  unfold clear_splash, update, with_splash.
  rewrite pop_all_but_first. reflexivity.
Qed.

(** X1.  [clear_splash] keeps the first element of [pyportal.splash] and
    removes every other one; an empty splash stays empty.  It never raises,
    leaves at most one element, and changes nothing but the splash. *)
Theorem clear_splash_keeps_first m :
  let m' := final (clear_splash m) in
  clear_splash m = Normal tt m' /\
  splash m' = firstn 1 (splash m) /\
  (List.length (splash m') <= 1)%nat /\
  (splash m = [] -> splash m' = []) /\
  globals m' = globals m /\ object_vars m' = object_vars m /\ log m' = log m.
Proof.
  cbv zeta. rewrite clear_splash_firstn. cbn [final].
  repeat split.
  - cbn [splash with_splash]. apply firstn_le_length.
  - cbn [splash with_splash]. intros ->. reflexivity.
Qed.

(** ** The backlight *)

(** X2.  [adjust_backlight_based_on_light] is hysteretic.  It returns, and
    afterwards [low_light] is true when the light level is at most 1000,
    false when the call is forced or the level is at least 2000, and what it
    was for an unforced call with a level strictly in between.  The
    backlight and the background are set (one call each) exactly when the
    call is forced or the mode changes; an unforced call with a level
    strictly between the thresholds changes nothing at all. *)
Theorem backlight_hysteresis env force m :
  let m' := final (adjust_backlight_based_on_light env force m) in
  adjust_backlight_based_on_light env force m = Normal tt m' /\
  low_light (globals m') =
    (if light_value env <=? 1000 then true
     else if force || (light_value env >=? 2000) then false
     else low_light (globals m)) /\
  (count is_display_mode_call (log m') =
   (if force || negb (Bool.eqb (low_light (globals m'))
                               (low_light (globals m)))
    then 2 else 0) + count is_display_mode_call (log m))%nat /\
  (force = false -> 1000 < light_value env < 2000 -> m' = m).
Proof.
  cbv zeta. split; [apply adjust_backlight_returns | ].
  split_machine m. unfold adjust_backlight_based_on_light, count.
  destruct (light_value env <=? 1000) eqn:Hlow;
    destruct (light_value env >=? 2000) eqn:Hhigh;
    destruct force; destruct low_light0; cbn;
    try (apply Z.leb_le in Hlow); try (apply Z.geb_le in Hhigh);
    try (apply Z.leb_gt in Hlow);
    try (assert (light_value env < 2000) by
           (destruct (Z.geb_spec (light_value env) 2000); [discriminate | lia]));
    repeat split; intros; try reflexivity; try congruence; try lia.
Qed.

(** ** What the blocks and methods do to the screen *)

Ltac screen_block m :=
  split_machine m;
  unfold screen, transition_log, cancel_snooze,
    adjust_backlight_based_on_light, refresh_local_time, refresh_weather,
    drag_adjust, display_refresh;
  repeat match goal with
         | self : TimeObject |- _ => destruct self
         | f : Time_Fields |- _ => destruct f
         end;
  crunch; try reflexivity.

Lemma cancel_snooze_screen self env m :
  screen (final (cancel_snooze self env m)) = screen m.
Proof. screen_block m. Qed.

Lemma adjust_backlight_screen env force m :
  screen (final (adjust_backlight_based_on_light env force m)) = screen m.
Proof. screen_block m. Qed.

Lemma refresh_local_time_screen self env now m :
  screen (final (refresh_local_time self env now m)) = screen m.
Proof. screen_block m. Qed.

Lemma refresh_weather_screen self env now m :
  screen (final (refresh_weather self env now m)) = screen m.
Proof. screen_block m. Qed.

Lemma drag_adjust_screen p q m :
  screen (final (drag_adjust p q m)) = screen m.
Proof. screen_block m. Qed.

Lemma after_refreshes_screen self env now m :
  screen (after_refreshes self env now m) = screen m.
Proof.
  unfold after_refreshes.
  rewrite refresh_weather_screen, refresh_local_time_screen.
  apply adjust_backlight_screen.
Qed.

Lemma exit_of_screen s m :
  screen (final (exit_of s m)) =
  (current_state (globals m), firstn 1 (splash m), transition_log m).
Proof.
  destruct s; unfold exit_of, Alarm_State_exit, State_exit;
    try rewrite (bind_normal _ _ _ _ _ (clear_splash_firstn m));
    try rewrite clear_splash_firstn; reflexivity.
Qed.

Lemma enter_of_screen s env m :
  screen (final (enter_of s env m)) =
  (current_state (globals m), (splash m ++ layers_of s)%list, transition_log m).
Proof.
  split_machine m.
  unfold screen, transition_log, enter_of, Time_State_enter, Alarm_State_enter,
    Setting_State_enter, adjust_backlight_based_on_light, display_refresh,
    layers_of.
  repeat match goal with
         | f : Time_Fields |- _ => destruct f
         end;
    destruct s; crunch; rewrite <- ?app_assoc, ?app_nil_r; reflexivity.
Qed.

(** The effect of a state change on the screen: the old state's layers are
    popped down to the first layer, the new state's layers are appended, and
    [exit] of the old state is followed by [enter] of the new one. *)
Lemma change_to_state_screen env s m :
  screen (final (change_to_state env s m)) =
  (Some s,
   (match current_state (globals m) with
    | Some _ => firstn 1 (splash m)
    | None => splash m
    end ++ layers_of s)%list,
   ev_enter s ::
   match current_state (globals m) with
   | Some c => ev_exit c :: transition_log m
   | None => transition_log m
   end).
Proof.
  rewrite change_to_state_eq, enter_of_screen. unfold before_enter.
  destruct (current_state (globals m)) as [c|].
  - pose proof (exit_of_screen c (add_event (ev_exit c) m)) as H.
    unfold screen in H. injection H as _ Hsp Hlog.
    cbn [globals with_globals set_current_state current_state splash
         add_event].
    unfold transition_log at 1.
    cbn [log add_event with_globals filter is_transition].
    fold (transition_log (final (exit_of c (add_event (ev_exit c) m)))).
    rewrite Hsp, Hlog. reflexivity.
  - reflexivity.
Qed.

(** ** The transition graph *)

Lemma screen_add_refresh m :
  screen (add_event ev_display_refresh m) = screen m.
Proof. reflexivity. Qed.

Lemma tick_of_graph s env now m :
  keeps_or_changes env [tick_target s] m (final (tick_of s env now m)).
Proof.
  unfold keeps_or_changes. destruct s; cbn [tick_of tick_target].
  - rewrite Time_State_tick_eq. cbv zeta.
    set (m1 := final (cancel_snooze time_object env m)).
    assert (H1 : screen m1 = screen m) by apply cancel_snooze_screen.
    destruct (and_elapsed_ge _ now snooze_interval).
    + right. exists Alarm_State, m1. cbn [In]. auto.
    + rewrite update_clock_eq. cbv zeta.
      set (m4 := after_refreshes time_object env now m1).
      assert (H4 : screen m4 = screen m).
      { unfold m4. rewrite after_refreshes_screen. exact H1. }
      assert (H5 : screen (clock_redrawn time_object env now m4) = screen m)
        by exact H4.
      destruct (not_or_elapsed_gt _ now 30); [ | left; exact H4].
      destruct (truthy _); [left; exact H5 | ].
      destruct (minute_matches env _); [ | left; exact H5].
      destruct (alarm_armed _); [ | left; exact H5].
      right. exists Alarm_State, (clock_redrawn time_object env now m4).
      cbn [In]. auto.
  - right. exists Time_State, m. cbn [In]. auto.
  - rewrite Alarm_State_tick_eq. destruct (snooze_button_value env).
    + left. destruct (and_elapsed_gt _ _ _); reflexivity.
    + right. exists Time_State, (with_globals (set_snooze_time (Some now)) m).
      cbn [In]. auto.
  - left. reflexivity.
Qed.

Lemma touch_buttons_graph env p m :
  keeps_or_changes env [Setting_State; Mugsy_State] m
    (final (touch_buttons env p Time_State_buttons m)).
Proof.
  unfold keeps_or_changes. rewrite touch_buttons_eq.
  destruct (touch_in_button p _).
  - right. exists Setting_State, m. cbn [In]. auto.
  - destruct (touch_in_button p _).
    + right. exists Mugsy_State, m. cbn [In]. auto.
    + left. reflexivity.
Qed.

Lemma touch_of_graph s env t was m :
  keeps_or_changes env (touch_targets s) m (final (touch_of s env t was m)).
Proof.
  destruct s; cbn [touch_of touch_targets];
    rewrite ?Time_State_touch_eq, ?Alarm_State_touch_eq,
      ?Setting_State_touch_eq;
    destruct t as [p|]; try destruct was; cbn [final];
    try apply touch_buttons_graph;
    try (left; reflexivity).
  - right. exists Time_State, (with_globals (set_snooze_time None) m).
    cbn [In]. auto.
  - cbv zeta. unfold keeps_or_changes. rewrite screen_add_refresh.
    destruct (touch_in_button p button_on); [left; reflexivity | ].
    destruct (touch_in_button p button_return).
    { right. exists Time_State, m. cbn [In]. auto. }
    destruct (touch_in_button p button_off); [left; reflexivity | ].
    destruct (alarm_enabled (globals m)); [ | left; reflexivity].
    destruct (previous_touch m) as [q|]; [ | left; reflexivity].
    left. apply drag_adjust_screen.
  - cbv zeta. unfold keeps_or_changes. rewrite screen_add_refresh.
    destruct (touch_in_button p button_on); [left; reflexivity | ].
    destruct (touch_in_button p button_return).
    { right. exists Time_State, m. cbn [In]. auto. }
    destruct (touch_in_button p button_off); [left; reflexivity | ].
    destruct (alarm_enabled (globals m)); [ | left; reflexivity].
    destruct (previous_touch m) as [q|]; [ | left; reflexivity].
    left. apply drag_adjust_screen.
Qed.

(** X3.  The transitions of the machine follow a fixed graph.  A tick keeps
    the screen (current state, splash, calls of [exit] and [enter]) or changes
    state once: from the time screen only to the alarm, from every other
    state only to the time screen; the tick of the action-trigger state
    always changes to the time screen, and the tick of the settings state
    does nothing.  A touch handler keeps the screen or changes state once:
    from the time screen to the settings or the action-trigger state, from
    the alarm and the settings state to the time screen. *)
Theorem transition_graph s env m :
  (forall now,
     keeps_or_changes env [tick_target s] m (final (tick_of s env now m))) /\
  (forall t was,
     keeps_or_changes env (touch_targets s) m
       (final (touch_of s env t was m))) /\
  (forall now,
     tick_of Mugsy_State env now m = change_to_state env Time_State m) /\
  (forall now, tick_of Setting_State env now m = Normal tt m).
Proof.
  split; [intros now; apply tick_of_graph | ].
  split; [intros t was; apply touch_of_graph | ].
  split; reflexivity.
Qed.

(** ** Induction over the passes of the loop *)

Lemma loop_body_final env s m :
  current_state (globals m) = Some s ->
  exists s',
    current_state (globals (after_touch env s m)) = Some s' /\
    final (loop_body env m) =
    final (tick_of s' env (monotonic env) (after_touch env s m)).
Proof.
  intros Hs. unfold loop_body.
  rewrite (bind_normal _ _ _ _ _ (loop_touch_eq env s m Hs)).
  pose proof (after_touch_current env s m) as Hc. rewrite Hs in Hc.
  destruct (current_state (globals (after_touch env s m))) as [s'|] eqn:Hs'.
  - exists s'. split; [reflexivity | ].
    rewrite (loop_tick_eq env s' _ Hs'). reflexivity.
  - exfalso. apply Hc; [discriminate | reflexivity].
Qed.

Lemma after_touch_screen env s m :
  screen (after_touch env s m) =
  screen (final (touch_of s env (touch_point env) (touched (globals m)) m)).
Proof. reflexivity. Qed.

Lemma startup_eq env0 m :
  startup env0 m =
  change_to_state env0 Time_State (with_splash (fun s => firstn 1 s) m).
Proof.
  unfold startup. rewrite (bind_normal _ _ _ _ _ (clear_splash_firstn m)).
  reflexivity.
Qed.

Lemma main_loop_ind (P : Machine -> Prop) :
  (forall env m,
     P m -> current_state (globals m) <> None -> P (final (loop_body env m))) ->
  forall envs m,
    P m -> current_state (globals m) <> None -> P (final (main_loop envs m)).
Proof.
  intros Hstep envs. induction envs as [|env rest IH]; intros m Hm Hc.
  - exact Hm.
  - destruct (loop_body_returns env m Hc) as [Hr Hc'].
    cbn [main_loop]. rewrite (bind_normal _ _ _ _ _ Hr).
    apply IH; [apply Hstep; assumption | exact Hc'].
Qed.

(** A property that holds after start-up and is kept by every pass holds of
    every machine the program reaches. *)
Lemma reachable_from_ind (splash0 : list Layer) (P : Machine -> Prop) :
  (forall env0, P (final (startup env0 (initial_machine splash0)))) ->
  (forall env m,
     P m -> current_state (globals m) <> None -> P (final (loop_body env m))) ->
  forall m, reachable_from splash0 m -> P m.
Proof.
  intros Hstart Hstep m (env0 & envs & Hrun).
  assert (Hs : startup env0 (initial_machine splash0) =
               Normal tt (final (startup env0 (initial_machine splash0)))).
  { rewrite startup_eq. apply change_to_state_returns. }
  rewrite (bind_normal _ _ _ _ _ Hs) in Hrun.
  set (m0 := final (startup env0 (initial_machine splash0))) in *.
  assert (Hc0 : current_state (globals m0) <> None).
  { unfold m0. rewrite startup_eq, change_to_state_current. discriminate. }
  destruct (main_loop_returns envs m0 Hc0) as [Hr _].
  rewrite Hr in Hrun. injection Hrun as <-.
  apply main_loop_ind; [exact Hstep | apply Hstart | exact Hc0].
Qed.

Lemma reachable_from_some m :
  reachable m <-> exists splash0, reachable_from splash0 m.
Proof.
  unfold reachable, reachable_from. split.
  - intros (splash0 & env0 & envs & H). eauto.
  - intros (splash0 & env0 & envs & H). eauto.
Qed.

(** A property of the screen that every [change_to_state] keeps is kept by a
    pass. *)
Lemma loop_body_screen_ind (P : option StateName * list Layer * list Event -> Prop) :
  (forall env target m1,
     P (screen m1) -> current_state (globals m1) <> None ->
     P (screen (final (change_to_state env target m1)))) ->
  forall env m,
    P (screen m) -> current_state (globals m) <> None ->
    P (screen (final (loop_body env m))).
Proof.
  intros Hchange env m Hm Hc.
  assert (Hkeep : forall targets ma mb,
             P (screen ma) -> current_state (globals ma) <> None ->
             keeps_or_changes env targets ma mb -> P (screen mb)).
  { intros targets ma mb Ha Hca [E | (target & m1 & _ & E1 & E2)].
    - rewrite E. exact Ha.
    - rewrite E2. apply Hchange.
      + rewrite E1. exact Ha.
      + unfold screen in E1. injection E1 as E1 _ _. rewrite E1. exact Hca. }
  destruct (current_state (globals m)) as [s|] eqn:Hs; [ | congruence].
  destruct (loop_body_final env s m Hs) as (s' & Hs' & ->).
  apply (Hkeep [tick_target s'] (after_touch env s m)).
  - rewrite after_touch_screen.
    apply (Hkeep (touch_targets s) m); [exact Hm | congruence | ].
    apply touch_of_graph.
  - congruence.
  - apply tick_of_graph.
Qed.

(** ** Invariants of the running program *)

Lemma startup_screen env0 splash0 :
  screen (final (startup env0 (initial_machine splash0))) =
  (Some Time_State, (firstn 1 splash0 ++ layers_of Time_State)%list,
   [ev_enter Time_State]).
Proof. rewrite startup_eq, change_to_state_screen. reflexivity. Qed.

(** X4.  In every machine the program reaches exactly one state is current,
    and the calls of [exit] and [enter] made so far are paired: the first
    call entered the time screen, every later [enter] directly follows the
    [exit] of the state entered before it, and the state entered last is the
    current one. *)
Theorem exit_enter_protocol m :
  reachable m ->
  exists s,
    current_state (globals m) = Some s /\
    well_paired (Some s) (transition_log m).
Proof.
  intros Hr. apply reachable_from_some in Hr. destruct Hr as [splash0 Hr].
  set (P := fun v : option StateName * list Layer * list Event =>
              exists s, fst (fst v) = Some s /\ well_paired (Some s) (snd v)).
  change (P (screen m)). revert m Hr. apply reachable_from_ind.
  - intros env0. rewrite startup_screen. exists Time_State.
    split; [reflexivity | constructor].
  - apply (loop_body_screen_ind P).
    intros env target m1 (c & Hc & Hp) _. rewrite change_to_state_screen.
    cbn [screen fst snd] in Hc, Hp. rewrite Hc.
    exists target. split; [reflexivity | ]. cbn [snd].
    constructor. exact Hp.
Qed.

Lemma exit_enter_protocol_witness :
  exists s,
    current_state (globals machine_snoozed_then_disabled) = Some s /\
    well_paired (Some s) (transition_log machine_snoozed_then_disabled).
Proof.
  apply (exit_enter_protocol machine_snoozed_then_disabled).
  exists [base_layer 0], (quiet_env 5 23 19), snoozed_then_disabled.
  vm_compute. reflexivity.
Defined.

(** X5.  When [pyportal.splash] is not empty at import time, in every machine
    the program reaches the splash is its original first element followed by
    exactly the layers of the current state: three text areas and two icon
    groups on the time screen, one text area on the settings screen, nothing
    on the alarm screen.  No layer of a state that was left stays behind. *)
Theorem splash_shows_current_state splash0 m :
  splash0 <> [] ->
  reachable_from splash0 m ->
  exists s,
    current_state (globals m) = Some s /\
    splash m = (firstn 1 splash0 ++ layers_of s)%list.
Proof.
  intros Hne.
  set (P := fun v : option StateName * list Layer * list Event =>
              exists s, fst (fst v) = Some s /\
                        snd (fst v) = (firstn 1 splash0 ++ layers_of s)%list).
  change (reachable_from splash0 m -> P (screen m)). revert m.
  apply reachable_from_ind.
  - intros env0. rewrite startup_screen. exists Time_State.
    split; reflexivity.
  - apply (loop_body_screen_ind P).
    intros env target m1 (c & Hc & Hsp) _. rewrite change_to_state_screen.
    cbn [screen fst snd] in Hc, Hsp. rewrite Hc, Hsp.
    exists target. split; [reflexivity | ]. cbn [fst snd].
    destruct splash0 as [|a rest]; [congruence | reflexivity].
Qed.

Lemma splash_shows_current_state_witness :
  exists s,
    current_state (globals machine_snoozed_then_disabled) = Some s /\
    splash machine_snoozed_then_disabled =
    (firstn 1 [base_layer 0] ++ layers_of s)%list.
Proof.
  apply (splash_shows_current_state [base_layer 0]
           machine_snoozed_then_disabled).
  - discriminate.
  - exists (quiet_env 5 23 19), snoozed_then_disabled.
    vm_compute. reflexivity.
Defined.

Lemma keeps_or_changes_current env targets m m' :
  keeps_or_changes env targets m m' ->
  current_state (globals m') = current_state (globals m) \/
  exists target, In target targets /\ current_state (globals m') = Some target.
Proof.
  intros [E | (target & m1 & Hin & _ & E)].
  - left. unfold screen in E. injection E as E _ _. exact E.
  - right. exists target. split; [exact Hin | ].
    rewrite change_to_state_screen in E. unfold screen in E.
    injection E as E _ _. exact E.
Qed.

(** X6.  The action-trigger state never outlives the pass that entered it:
    between two passes the current state is the time, the alarm or the
    settings state.  Its inherited touch handler therefore never runs. *)
Theorem action_trigger_is_transient m :
  reachable m ->
  current_state (globals m) = Some Time_State \/
  current_state (globals m) = Some Alarm_State \/
  current_state (globals m) = Some Setting_State.
Proof.
  intros Hr. apply reachable_from_some in Hr. destruct Hr as [splash0 Hr].
  revert m Hr. apply reachable_from_ind.
  - intros env0. left. rewrite startup_eq. apply change_to_state_current.
  - intros env m Hm Hc.
    destruct (current_state (globals m)) as [s|] eqn:Hs; [ | congruence].
    destruct (loop_body_final env s m Hs) as (s' & Hs' & ->).
    pose proof (keeps_or_changes_current _ _ _ _
                  (tick_of_graph s' env (monotonic env) (after_touch env s m)))
      as Htick.
    rewrite Hs' in Htick.
    destruct s'.
    + destruct Htick as [-> | (t & [<- | []] & ->)]; auto.
    + cbn [tick_of]. unfold Mugsy_State_tick.
      rewrite change_to_state_current. auto.
    + destruct Htick as [-> | (t & [<- | []] & ->)]; auto.
    + destruct Htick as [-> | (t & [<- | []] & ->)]; auto.
Qed.

Lemma action_trigger_is_transient_witness :
  current_state (globals (final (loop_body
                                   (touch_at 300 200 (quiet_env 10 12 0))
                                   machine_started))) = Some Time_State \/
  current_state (globals (final (loop_body
                                   (touch_at 300 200 (quiet_env 10 12 0))
                                   machine_started))) = Some Alarm_State \/
  current_state (globals (final (loop_body
                                   (touch_at 300 200 (quiet_env 10 12 0))
                                   machine_started))) = Some Setting_State.
Proof.
  apply action_trigger_is_transient.
  exists [base_layer 0], (quiet_env 5 23 19),
    [touch_at 300 200 (quiet_env 10 12 0)].
  vm_compute. reflexivity.
Defined.

(** ** The alarm time *)

(** No tick writes the alarm configuration or the [touched] flag. *)
Lemma tick_of_config_kept s env now m :
  let g' := globals (final (tick_of s env now m)) in
  alarm_enabled g' = alarm_enabled (globals m) /\
  alarm_hour g' = alarm_hour (globals m) /\
  alarm_minute g' = alarm_minute (globals m) /\
  touched g' = touched (globals m).
Proof.
  cbv zeta. destruct s; cbn [tick_of].
  - pose proof (Time_State_tick_globals time_object env now m) as H.
    cbv zeta in H.
    destruct (cancel_snooze_kept time_object env m)
      as (Hen & Hh & Hmi & _ & Ht & _).
    repeat match type of H with
           | context [if ?c then _ else _] => destruct c
           end;
      use_alarm_vars H; repeat split; congruence.
  - unfold Mugsy_State_tick.
    pose proof (change_to_state_globals env Time_State m) as H.
    cbv zeta in H. use_alarm_vars H. repeat split; assumption.
  - rewrite Alarm_State_tick_eq. destruct (snooze_button_value env).
    + destruct (and_elapsed_gt _ _ _); repeat split.
    + pose proof (change_to_state_globals env Time_State
                    (with_globals (set_snooze_time (Some now)) m)) as H.
      cbv zeta in H. use_alarm_vars H. repeat split; assumption.
  - repeat split.
Qed.

Lemma touch_buttons_globals env p m :
  alarm_hour (globals (final (touch_buttons env p Time_State_buttons m))) =
    alarm_hour (globals m) /\
  alarm_minute (globals (final (touch_buttons env p Time_State_buttons m))) =
    alarm_minute (globals m).
Proof.
  rewrite touch_buttons_eq.
  repeat destruct (touch_in_button _ _); try (split; reflexivity).
  - pose proof (change_to_state_globals env Setting_State m) as H.
    cbv zeta in H. use_alarm_vars H. split; assumption.
  - pose proof (change_to_state_globals env Mugsy_State m) as H.
    cbv zeta in H. use_alarm_vars H. split; assumption.
Qed.

Lemma moved_in_range v modulus (b1 b2 : bool) :
  0 < modulus -> 0 <= v < modulus ->
  0 <= (if b1 then (v + 1) mod modulus
        else if b2 then (v - 1) mod modulus else v) < modulus.
Proof.
  intros Hm Hv. destruct b1; [apply Z.mod_pos_bound, Hm | ].
  destruct b2; [apply Z.mod_pos_bound, Hm | exact Hv].
Qed.

(** A touch handler keeps the alarm time inside the clock face. *)
Lemma touch_of_alarm_range s env t was m :
  0 <= alarm_hour (globals m) < 24 /\ 0 <= alarm_minute (globals m) < 60 ->
  0 <= alarm_hour (globals (final (touch_of s env t was m))) < 24 /\
  0 <= alarm_minute (globals (final (touch_of s env t was m))) < 60.
Proof.
  intros [Hh Hmi].
  assert (Hchange : forall target m1,
             alarm_hour (globals m1) = alarm_hour (globals m) ->
             alarm_minute (globals m1) = alarm_minute (globals m) ->
             0 <= alarm_hour (globals (final (change_to_state env target m1)))
             < 24 /\
             0 <= alarm_minute
                    (globals (final (change_to_state env target m1))) < 60).
  { intros target m1 E1 E2.
    pose proof (change_to_state_globals env target m1) as H.
    cbv zeta in H. use_alarm_vars H. split; congruence. }
  destruct s; cbn [touch_of];
    rewrite ?Time_State_touch_eq, ?Alarm_State_touch_eq,
      ?Setting_State_touch_eq;
    destruct t as [p|]; try destruct was; cbn [final]; auto.
  - destruct (touch_buttons_globals env p m) as [-> ->]. auto.
  - destruct (touch_buttons_globals env p m) as [-> ->]. auto.
  - cbv zeta. cbn [globals add_event].
    destruct (touch_in_button p button_on); [auto | ].
    destruct (touch_in_button p button_return); [auto | ].
    destruct (touch_in_button p button_off); [auto | ].
    destruct (alarm_enabled (globals m)); [ | auto].
    destruct (previous_touch m) as [q|]; [ | auto].
    pose proof (drag_adjust_globals p q m) as H. cbv zeta in H.
    unfold alarm_vars in H. injection H as _ _ Eh Em _ _ _ _.
    rewrite Eh, Em.
    destruct (touch_in_button p button_hours).
    + split; [apply moved_in_range; [lia | exact Hh] | exact Hmi].
    + split; [exact Hh | ].
      destruct (touch_in_button p button_minutes);
        [apply moved_in_range; [lia | exact Hmi] | exact Hmi].
  - cbv zeta. cbn [globals add_event].
    destruct (touch_in_button p button_on); [auto | ].
    destruct (touch_in_button p button_return); [auto | ].
    destruct (touch_in_button p button_off); [auto | ].
    destruct (alarm_enabled (globals m)); [ | auto].
    destruct (previous_touch m) as [q|]; [ | auto].
    pose proof (drag_adjust_globals p q m) as H. cbv zeta in H.
    unfold alarm_vars in H. injection H as _ _ Eh Em _ _ _ _.
    rewrite Eh, Em.
    destruct (touch_in_button p button_hours).
    + split; [apply moved_in_range; [lia | exact Hh] | exact Hmi].
    + split; [exact Hh | ].
      destruct (touch_in_button p button_minutes);
        [apply moved_in_range; [lia | exact Hmi] | exact Hmi].
Qed.

(** X7.  In every machine the program reaches the alarm time is a time of
    day: [0 <= alarm_hour < 24] and [0 <= alarm_minute < 60], however the
    settings screen is dragged. *)
Theorem alarm_time_in_range m :
  reachable m ->
  0 <= alarm_hour (globals m) < 24 /\ 0 <= alarm_minute (globals m) < 60.
Proof.
  intros Hr. apply reachable_from_some in Hr. destruct Hr as [splash0 Hr].
  revert m Hr. apply reachable_from_ind.
  - intros env0. rewrite startup_eq.
    pose proof (change_to_state_globals env0 Time_State
                  (with_splash (fun s => firstn 1 s)
                     (initial_machine splash0))) as H.
    cbv zeta in H. use_alarm_vars H.
    split; [replace (alarm_hour _) with 23 | replace (alarm_minute _) with 20];
      lia.
  - intros env m Hm Hc.
    destruct (current_state (globals m)) as [s|] eqn:Hs; [ | congruence].
    destruct (loop_body_final env s m Hs) as (s' & Hs' & ->).
    destruct (tick_of_config_kept s' env (monotonic env) (after_touch env s m))
      as (_ & -> & -> & _).
    unfold after_touch. cbn [globals with_globals set_touched alarm_hour
                             alarm_minute].
    apply touch_of_alarm_range, Hm.
Qed.

Lemma alarm_time_in_range_witness :
  0 <= alarm_hour (globals machine_drag_started) < 24 /\
  0 <= alarm_minute (globals machine_drag_started) < 60.
Proof.
  apply alarm_time_in_range.
  exists [base_layer 0], (quiet_env 5 23 19), drag_started.
  vm_compute. reflexivity.
Defined.

(** X8.  Dragging is reversible.  On the settings screen, with the alarm
    enabled, a retained sample [q] and an alarm time inside the clock face: a
    sample above [q] followed by a sample below [q], both in the same zone
    and on no button, bring the hour and the minute back to what they were.
    The retained sample does not move during the drag. *)
Theorem drag_up_then_down_restores env env' p1 p2 q was was' m :
  alarm_enabled (globals m) = true ->
  previous_touch m = Some q ->
  0 <= alarm_hour (globals m) < 24 ->
  0 <= alarm_minute (globals m) < 60 ->
  touch_in_button p1 button_on = false ->
  touch_in_button p1 button_return = false ->
  touch_in_button p1 button_off = false ->
  touch_in_button p2 button_on = false ->
  touch_in_button p2 button_return = false ->
  touch_in_button p2 button_off = false ->
  touch_in_button p2 button_hours = touch_in_button p1 button_hours ->
  touch_in_button p2 button_minutes = touch_in_button p1 button_minutes ->
  touch_y p1 < touch_y q < touch_y p2 ->
  let m1 := final (Setting_State_touch env (Some p1) was m) in
  let m2 := final (Setting_State_touch env' (Some p2) was' m1) in
  alarm_hour (globals m2) = alarm_hour (globals m) /\
  alarm_minute (globals m2) = alarm_minute (globals m) /\
  previous_touch m1 = Some q /\ previous_touch m2 = Some q.
Proof.
  intros Hen Hq Hh Hmi On1 Ret1 Off1 On2 Ret2 Off2 Eh Em [Hup Hdown] m1 m2.
  assert (Hstep : forall e p w mm,
             alarm_enabled (globals mm) = true ->
             previous_touch mm = Some q ->
             touch_in_button p button_on = false ->
             touch_in_button p button_return = false ->
             touch_in_button p button_off = false ->
             final (Setting_State_touch e (Some p) w mm) =
             add_event ev_display_refresh (final (drag_adjust p q mm))).
  { intros e p w mm E1 E2 E3 E4 E5. rewrite Setting_State_touch_eq. cbv zeta.
    rewrite E3, E4, E5, E1, E2. reflexivity. }
  pose proof (drag_adjust_globals p1 q m) as G1. cbv zeta in G1.
  pose proof (drag_adjust_objects p1 q m) as O1.
  assert (E1 : m1 = add_event ev_display_refresh (final (drag_adjust p1 q m)))
    by (apply Hstep; assumption).
  unfold alarm_vars in G1. injection G1 as Gen _ Gh Gm _ _ _ _.
  unfold object_vars in O1. injection O1 as _ _ _ _ _ Op.
  assert (Hen1 : alarm_enabled (globals m1) = true).
  { rewrite E1. cbn [globals add_event]. congruence. }
  assert (Hq1 : previous_touch m1 = Some q).
  { rewrite E1. cbn [previous_touch add_event]. congruence. }
  pose proof (drag_adjust_globals p2 q m1) as G2. cbv zeta in G2.
  pose proof (drag_adjust_objects p2 q m1) as O2.
  assert (E2 : m2 = add_event ev_display_refresh (final (drag_adjust p2 q m1)))
    by (apply Hstep; assumption).
  unfold alarm_vars in G2. injection G2 as _ _ Gh2 Gm2 _ _ _ _.
  unfold object_vars in O2. injection O2 as _ _ _ _ _ Op2.
  assert (Hh1 : alarm_hour (globals m1) =
                alarm_hour (globals (final (drag_adjust p1 q m))))
    by (rewrite E1; reflexivity).
  assert (Hm1 : alarm_minute (globals m1) =
                alarm_minute (globals (final (drag_adjust p1 q m))))
    by (rewrite E1; reflexivity).
  assert (Lt1 : (touch_y p1 <? touch_y q) = true) by (apply Z.ltb_lt; lia).
  assert (Lt2 : (touch_y p2 <? touch_y q) = false) by (apply Z.ltb_ge; lia).
  assert (Gt2 : (touch_y p2 >? touch_y q) = true)
    by (apply Z.gtb_lt; lia).
  rewrite Lt1 in Gh, Gm. rewrite Lt2, Gt2, Eh in Gh2.
  rewrite Lt2, Gt2, Eh, Em in Gm2.
  repeat split.
  - rewrite E2. cbn [globals add_event]. rewrite Gh2, Hh1, Gh.
    destruct (touch_in_button p1 button_hours); [ | reflexivity].
    rewrite Zminus_mod_idemp_l.
    replace (alarm_hour (globals m) + 1 - 1) with (alarm_hour (globals m))
      by lia.
    apply Z.mod_small, Hh.
  - rewrite E2. cbn [globals add_event]. rewrite Gm2, Hm1, Gm.
    destruct (touch_in_button p1 button_hours); [reflexivity | ].
    destruct (touch_in_button p1 button_minutes); [ | reflexivity].
    rewrite Zminus_mod_idemp_l.
    replace (alarm_minute (globals m) + 1 - 1) with (alarm_minute (globals m))
      by lia.
    apply Z.mod_small, Hmi.
  - exact Hq1.
  - rewrite E2. cbn [previous_touch add_event]. congruence.
Qed.

Lemma drag_up_then_down_restores_witness :
  alarm_minute
    (globals (final (Setting_State_touch (quiet_env 14 12 0)
                       (Some (60, 120, 1)) true
                       (final (Setting_State_touch (quiet_env 13 12 0)
                                 (Some (60, 100, 1)) true
                                 machine_drag_started)))))
  = alarm_minute (globals machine_drag_started).
Proof.
  apply (drag_up_then_down_restores (quiet_env 13 12 0) (quiet_env 14 12 0)
           (60, 100, 1) (60, 120, 1) (60, 110, 1) true true
           machine_drag_started);
    try reflexivity; vm_compute; intuition discriminate.
Defined.

(** ** Cancelling the alarm *)

(** X9.  A touch that begins on the alarm screen cancels the alarm: the
    handler returns on the time screen with no snooze pending and the alarm
    disarmed, whatever [snooze_time] and [alarm_armed] were, and it leaves the
    alarm time and the enabled flag alone. *)
Theorem touch_cancels_alarm env p m :
  current_state (globals m) = Some Alarm_State ->
  let m' := final (touch_of Alarm_State env (Some p) false m) in
  touch_of Alarm_State env (Some p) false m = Normal true m' /\
  current_state (globals m') = Some Time_State /\
  snooze_time (globals m') = None /\
  alarm_armed (globals m') = false /\
  alarm_enabled (globals m') = alarm_enabled (globals m) /\
  alarm_hour (globals m') = alarm_hour (globals m) /\
  alarm_minute (globals m') = alarm_minute (globals m).
Proof.
  intros Hs m'. subst m'. cbn [touch_of]. rewrite Alarm_State_touch_eq.
  cbn [final]. split; [reflexivity | ].
  pose proof (change_to_state_globals env Time_State
                (with_globals (set_snooze_time None) m)) as H.
  cbv zeta in H.
  cbn [globals with_globals set_snooze_time current_state snooze_time truthy
       alarm_enabled alarm_hour alarm_minute] in H.
  rewrite Hs in H. use_alarm_vars H. repeat split; assumption.
Qed.

Lemma touch_cancels_alarm_witness :
  alarm_armed
    (globals (final (touch_of Alarm_State (quiet_env 11 23 20)
                       (Some (100, 100, 1)) false machine_alarm_raised)))
  = false.
Proof.
  apply (touch_cancels_alarm (quiet_env 11 23 20) (100, 100, 1)
           machine_alarm_raised).
  reflexivity.
Defined.

(** ** Passes on which no touch begins *)

Lemma after_touch_no_new_touch env s m :
  s <> Setting_State ->
  touch_point env = None \/ touched (globals m) = true ->
  after_touch env s m =
  with_globals (set_touched (touch_present (touch_point env))) m.
Proof.
  intros Hs Hor. unfold after_touch. f_equal.
  destruct s; try congruence; cbn [touch_of];
    rewrite ?Time_State_touch_eq, ?Alarm_State_touch_eq;
    destruct Hor as [-> | ->]; try destruct (touch_point env); reflexivity.
Qed.

(** X10.  The main loop keeps [touched] equal to whether the pass just run
    saw a touch. *)
Theorem touched_tracks_touch env m :
  current_state (globals m) <> None ->
  touched (globals (final (loop_body env m))) = touch_present (touch_point env).
Proof.
  intros Hc.
  destruct (current_state (globals m)) as [s|] eqn:Hs; [ | congruence].
  destruct (loop_body_final env s m Hs) as (s' & Hs' & ->).
  destruct (tick_of_config_kept s' env (monotonic env) (after_touch env s m))
    as (_ & _ & _ & ->).
  reflexivity.
Qed.

Lemma touched_tracks_touch_witness :
  touched (globals (final (loop_body (touch_at 10 10 (quiet_env 10 12 0))
                             machine_started)))
  = true.
Proof.
  apply (touched_tracks_touch (touch_at 10 10 (quiet_env 10 12 0))
           machine_started).
  discriminate.
Defined.

Lemma Time_State_tick_no_change self env now m :
  alarm_armed (globals (final (cancel_snooze self env m))) = false ->
  truthy (snooze_time (globals (final (cancel_snooze self env m)))) = false ->
  transitions (final (Time_State_tick self env now m)) = transitions m.
Proof.
  intros Ha Hsn. rewrite Time_State_tick_eq. cbv zeta.
  rewrite (and_elapsed_ge_falsy _ _ _ Hsn).
  rewrite update_clock_transitions, after_refreshes_transitions,
    cancel_snooze_transitions.
  pose proof (after_refreshes_globals self env now
                (final (cancel_snooze self env m))) as H.
  unfold alarm_vars in H. injection H as _ E _ _ _ _ _ _.
  unfold alarm_fires. rewrite E, Ha, andb_false_r. reflexivity.
Qed.

(** One pass on the time screen with the alarm disarmed and no snooze
    pending, on which no touch begins and the alarm cannot be re-armed. *)
Lemma disarmed_pass env m :
  current_state (globals m) = Some Time_State ->
  truthy (snooze_time (globals m)) = false ->
  alarm_armed (globals m) = false ->
  touch_point env = None \/ touched (globals m) = true ->
  minute_matches env (globals m) = true \/ alarm_enabled (globals m) = false ->
  let m' := final (loop_body env m) in
  current_state (globals m') = Some Time_State /\
  truthy (snooze_time (globals m')) = false /\
  alarm_armed (globals m') = false /\
  alarm_enabled (globals m') = alarm_enabled (globals m) /\
  alarm_hour (globals m') = alarm_hour (globals m) /\
  alarm_minute (globals m') = alarm_minute (globals m) /\
  touched (globals m') = touch_present (touch_point env) /\
  transitions m' = transitions m.
Proof.
  intros Hs Hsn Ha Ht Hq m'. subst m'.
  destruct (loop_body_final env Time_State m Hs) as (s' & Hs' & ->).
  rewrite after_touch_no_new_touch in Hs' |- * by (congruence || assumption).
  set (ma := with_globals (set_touched (touch_present (touch_point env))) m)
    in *.
  assert (s' = Time_State) by (cbn in Hs'; congruence). subst s'.
  cbn [tick_of].
  pose proof (Time_State_tick_globals time_object env (monotonic env) ma) as H.
  cbv zeta in H.
  destruct (cancel_snooze_kept time_object env ma)
    as (Hen & Hh & Hmi & Hut & Htd & Hcs).
  pose proof (cancel_snooze_snooze_time time_object env ma) as Hst.
  pose proof (cancel_snooze_armed time_object env ma) as Harm.
  change (alarm_armed (globals ma)) with (alarm_armed (globals m)) in Harm.
  change (snooze_time (globals ma)) with (snooze_time (globals m)) in Hst.
  rewrite Ha, andb_false_r in Harm.
  assert (Hsn1 : truthy (snooze_time
                           (globals (final (cancel_snooze time_object env ma))))
                 = false).
  { rewrite Hst. destruct (snooze_button_value env); [exact Hsn | reflexivity]. }
  pose proof (Time_State_tick_no_change time_object env (monotonic env) ma
                Harm Hsn1) as Htr.
  change (transitions ma) with (transitions m) in Htr.
  rewrite (and_elapsed_ge_falsy _ _ _ Hsn1), Hsn1, Harm in H.
  rewrite (minute_matches_ext env _ _ Hh Hmi) in H.
  change (minute_matches env (globals ma))
    with (minute_matches env (globals m)) in H.
  change (alarm_enabled (globals ma)) with (alarm_enabled (globals m)) in Hen.
  change (alarm_hour (globals ma)) with (alarm_hour (globals m)) in Hh.
  change (alarm_minute (globals ma)) with (alarm_minute (globals m)) in Hmi.
  change (current_state (globals ma)) with (current_state (globals m)) in Hcs.
  change (touched (globals ma)) with (touch_present (touch_point env)) in Htd.
  destruct (not_or_elapsed_gt _ _ 30).
  - destruct (minute_matches env (globals m)) eqn:Hmm.
    + unfold alarm_vars in H. injection H as E1 E2 E3 E4 E5 E6 E7 E8.
      rewrite E1, E2, E3, E4, E5, E7, E8. repeat split; congruence.
    + destruct Hq as [Hq | Hq]; [discriminate | ].
      unfold alarm_vars in H. injection H as E1 E2 E3 E4 E5 E6 E7 E8.
      rewrite E1, E2, E3, E4, E5, E7, E8. repeat split; congruence.
  - unfold alarm_vars in H. injection H as E1 E2 E3 E4 E5 E6 E7 E8.
    rewrite E1, E2, E3, E4, E5, E7, E8. repeat split; congruence.
Qed.

(** X11.  After the alarm is disarmed it does not go off again in the same
    minute, and a disabled alarm that is disarmed does not go off at all.  On
    the time screen with no snooze pending and [alarm_armed] false, over any
    passes on which no touch begins and on each of which the minute shown is
    the alarm's minute or the alarm is disabled, the loop runs without
    raising and the machine stays on the time screen, disarmed. *)
Theorem disarmed_alarm_stays_silent envs :
  forall m,
    current_state (globals m) = Some Time_State ->
    truthy (snooze_time (globals m)) = false ->
    alarm_armed (globals m) = false ->
    no_new_touch (touched (globals m)) envs ->
    Forall (fun e => minute_matches e (globals m) = true \/
                     alarm_enabled (globals m) = false) envs ->
    let m' := final (main_loop envs m) in
    main_loop envs m = Normal tt m' /\
    current_state (globals m') = Some Time_State /\
    alarm_armed (globals m') = false /\
    transitions m' = transitions m.
Proof.
  induction envs as [|e rest IH]; intros m Hs Hsn Ha Hnt Hq m'; subst m'.
  - repeat split; assumption.
  - destruct Hnt as [Ht Hnt]. inversion Hq as [|? ? Hq1 Hq2]; subst.
    destruct (disarmed_pass e m Hs Hsn Ha Ht Hq1)
      as (Hs1 & Hsn1 & Ha1 & Hen1 & Hh1 & Hmi1 & Ht1 & Htr).
    assert (Hc : current_state (globals m) <> None) by congruence.
    destruct (loop_body_returns e m Hc) as [Hr _].
    cbn [main_loop]. rewrite (bind_normal _ _ _ _ _ Hr).
    set (m1 := final (loop_body e m)) in *.
    assert (Hq' : Forall (fun e0 => minute_matches e0 (globals m1) = true \/
                                    alarm_enabled (globals m1) = false) rest).
    { eapply Forall_impl; [ | exact Hq2]. cbn beta. intros e0 H.
      rewrite (minute_matches_ext e0 _ _ Hh1 Hmi1), Hen1. exact H. }
    rewrite <- Ht1 in Hnt.
    destruct (IH m1 Hs1 Hsn1 Ha1 Hnt Hq') as (R & S1 & A1 & T1).
    repeat split; try assumption.
    rewrite T1. exact Htr.
Qed.

Lemma disarmed_alarm_stays_silent_witness :
  current_state
    (globals (final (main_loop
                       [touch_at 100 100 (quiet_env 12 23 20);
                        quiet_env 30 23 20; quiet_env 50 23 20]
                       machine_alarm_cancelled)))
  = Some Time_State.
Proof.
  apply (disarmed_alarm_stays_silent
           [touch_at 100 100 (quiet_env 12 23 20);
            quiet_env 30 23 20; quiet_env 50 23 20]
           machine_alarm_cancelled).
  - reflexivity.
  - reflexivity.
  - reflexivity.
  - vm_compute. auto.
  - repeat constructor; left; reflexivity.
Defined.

(** ** The alarm and the settings screen stay until they are dismissed *)

Lemma alarm_pass env m :
  current_state (globals m) = Some Alarm_State ->
  snooze_button_value env = true ->
  touch_point env = None \/ touched (globals m) = true ->
  let m' := final (loop_body env m) in
  current_state (globals m') = Some Alarm_State /\
  snooze_time (globals m') = snooze_time (globals m) /\
  alarm_armed (globals m') = alarm_armed (globals m) /\
  touched (globals m') = touch_present (touch_point env) /\
  transitions m' = transitions m /\
  (count is_play_file (log m') <= S (count is_play_file (log m)))%nat.
Proof.
  intros Hs Hb Ht m'. subst m'.
  destruct (loop_body_final env Alarm_State m Hs) as (s' & Hs' & ->).
  rewrite after_touch_no_new_touch in Hs' |- * by (congruence || assumption).
  set (ma := with_globals (set_touched (touch_present (touch_point env))) m)
    in *.
  assert (s' = Alarm_State) by (cbn in Hs'; congruence). subst s'.
  cbn [tick_of]. rewrite Alarm_State_tick_eq, Hb.
  destruct (and_elapsed_gt _ _ _); cbn [final];
    repeat split; try exact Hs; unfold count; cbn; lia.
Qed.

(** X12.  The alarm does not stop by itself.  In the alarm state, over any
    passes on which the snooze button is up and no touch begins, the loop
    runs without raising, the machine stays in the alarm state with
    [snooze_time] and [alarm_armed] as they were, and the alarm file is
    played at most once per pass. *)
Theorem alarm_rings_until_dismissed envs :
  forall m,
    current_state (globals m) = Some Alarm_State ->
    Forall (fun e => snooze_button_value e = true) envs ->
    no_new_touch (touched (globals m)) envs ->
    let m' := final (main_loop envs m) in
    main_loop envs m = Normal tt m' /\
    current_state (globals m') = Some Alarm_State /\
    snooze_time (globals m') = snooze_time (globals m) /\
    alarm_armed (globals m') = alarm_armed (globals m) /\
    transitions m' = transitions m /\
    (count is_play_file (log m')
     <= List.length envs + count is_play_file (log m))%nat.
Proof.
  induction envs as [|e rest IH]; intros m Hs Hb Hnt m'; subst m'.
  - repeat split; try assumption. cbn. lia.
  - destruct Hnt as [Ht Hnt]. inversion Hb as [|? ? Hb1 Hb2]; subst.
    destruct (alarm_pass e m Hs Hb1 Ht) as (Hs1 & Hsn1 & Ha1 & Ht1 & Htr & Hpl).
    assert (Hc : current_state (globals m) <> None) by congruence.
    destruct (loop_body_returns e m Hc) as [Hr _].
    cbn [main_loop]. rewrite (bind_normal _ _ _ _ _ Hr).
    set (m1 := final (loop_body e m)) in *.
    rewrite <- Ht1 in Hnt.
    destruct (IH m1 Hs1 Hb2 Hnt) as (R & S1 & SN & A1 & T1 & P1).
    repeat split; try assumption; try congruence.
    cbn [List.length]. lia.
Qed.

Lemma alarm_rings_until_dismissed_witness :
  current_state
    (globals (final (main_loop [quiet_env 12 23 20; quiet_env 16 23 20;
                                quiet_env 70 23 21]
                       machine_alarm_raised)))
  = Some Alarm_State.
Proof.
  apply (alarm_rings_until_dismissed
           [quiet_env 12 23 20; quiet_env 16 23 20; quiet_env 70 23 21]
           machine_alarm_raised).
  - reflexivity.
  - repeat constructor.
  - vm_compute. auto.
Defined.

Lemma settings_pass env m :
  current_state (globals m) = Some Setting_State ->
  off_return env ->
  let m' := final (loop_body env m) in
  current_state (globals m') = Some Setting_State /\
  snooze_time (globals m') = snooze_time (globals m) /\
  alarm_armed (globals m') = alarm_armed (globals m) /\
  update_time (globals m') = update_time (globals m) /\
  transitions m' = transitions m.
Proof.
  intros Hs Hoff m'. subst m'.
  destruct (loop_body_final env Setting_State m Hs) as (s' & Hs' & ->).
  assert (Hview :
            current_state (globals (after_touch env Setting_State m)) =
              Some Setting_State /\
            snooze_time (globals (after_touch env Setting_State m)) =
              snooze_time (globals m) /\
            alarm_armed (globals (after_touch env Setting_State m)) =
              alarm_armed (globals m) /\
            update_time (globals (after_touch env Setting_State m)) =
              update_time (globals m) /\
            transitions (after_touch env Setting_State m) = transitions m).
  { unfold after_touch, off_return in *. cbn [touch_of].
    rewrite Setting_State_touch_eq.
    destruct (touch_point env) as [p|]; cbn [final];
      [ | repeat split; first [exact Hs | reflexivity]].
    cbv zeta.
    destruct (touch_in_button p button_on); [repeat split; first [exact Hs | reflexivity] | ].
    destruct Hoff as [Hoff | Hoff]; [discriminate | rewrite Hoff].
    destruct (touch_in_button p button_off); [repeat split; first [exact Hs | reflexivity] | ].
    destruct (alarm_enabled (globals m)); [ | repeat split; first [exact Hs | reflexivity]].
    destruct (previous_touch m) as [q|]; [ | repeat split; first [exact Hs | reflexivity]].
    pose proof (drag_adjust_globals p q m) as H. cbv zeta in H.
    unfold alarm_vars in H. injection H as _ E2 _ _ E5 E6 _ E8.
    pose proof (drag_adjust_transitions p q m) as Htr.
    cbn [globals with_globals add_event set_touched current_state snooze_time
         alarm_armed update_time].
    repeat split; try congruence. exact Htr. }
  destruct Hview as (Hcs & Hsn & Ha & Hu & Htr).
  assert (s' = Setting_State) by congruence. subst s'.
  cbn [tick_of State_tick pass final]. repeat split; assumption.
Qed.

(** X13.  The settings screen is left only through its return button.  In
    the settings state, over any passes whose touch sample, if there is one,
    does not take the return branch, the loop runs without raising and the
    machine stays in the settings state, whatever the time of day:
    [snooze_time], [alarm_armed] and [update_time] are not written, so the
    clock is not redrawn and the alarm cannot go off while the settings
    screen is open. *)
Theorem settings_stay_until_return envs :
  forall m,
    current_state (globals m) = Some Setting_State ->
    Forall off_return envs ->
    let m' := final (main_loop envs m) in
    main_loop envs m = Normal tt m' /\
    current_state (globals m') = Some Setting_State /\
    snooze_time (globals m') = snooze_time (globals m) /\
    alarm_armed (globals m') = alarm_armed (globals m) /\
    update_time (globals m') = update_time (globals m) /\
    transitions m' = transitions m.
Proof.
  induction envs as [|e rest IH]; intros m Hs Hoff m'; subst m'.
  - repeat split; assumption.
  - inversion Hoff as [|? ? Ho1 Ho2]; subst.
    destruct (settings_pass e m Hs Ho1) as (Hs1 & Hsn1 & Ha1 & Hu1 & Htr).
    assert (Hc : current_state (globals m) <> None) by congruence.
    destruct (loop_body_returns e m Hc) as [Hr _].
    cbn [main_loop]. rewrite (bind_normal _ _ _ _ _ Hr).
    set (m1 := final (loop_body e m)) in *.
    destruct (IH m1 Hs1 Ho2) as (R & S1 & SN & A1 & U1 & T1).
    repeat split; try assumption; congruence.
Qed.

Lemma settings_stay_until_return_witness :
  current_state
    (globals (final (main_loop [quiet_env 11 23 20;
                                touch_at 60 110 (quiet_env 12 23 20);
                                touch_at 60 100 (quiet_env 13 23 20)]
                       machine_settings_opened)))
  = Some Setting_State.
Proof.
  apply (settings_stay_until_return
           [quiet_env 11 23 20; touch_at 60 110 (quiet_env 12 23 20);
            touch_at 60 100 (quiet_env 13 23 20)]
           machine_settings_opened).
  - reflexivity.
  - apply Forall_cons; [exact I | ].
    apply Forall_cons; [right; reflexivity | ].
    apply Forall_cons; [right; reflexivity | apply Forall_nil].
Defined.

(** ** The buttons of the time screen *)

Lemma touch_in_button_iff t b :
  touch_in_button t b = true <->
  right b <= touch_x t <= left b /\ top b <= touch_y t <= bottom b.
Proof.
  unfold touch_in_button.
  rewrite !andb_true_iff, !Z.geb_le, !Z.leb_le. lia.
Qed.

(** X14.  A touch that begins on the time screen is dispatched on its
    coordinates alone, whatever its pressure: with [240 <= x <= 320] it opens
    the settings screen when [50 <= y <= 120] and the action-trigger state
    when [155 <= y <= 220]; anywhere else nothing happens.  The two buttons
    do not overlap. *)
Theorem clock_touch_dispatch env x y z m :
  (240 <= x <= 320 -> 50 <= y <= 120 ->
   touch_of Time_State env (Some (x, y, z)) false m =
   Normal true (final (change_to_state env Setting_State m))) /\
  (240 <= x <= 320 -> 155 <= y <= 220 ->
   touch_of Time_State env (Some (x, y, z)) false m =
   Normal true (final (change_to_state env Mugsy_State m))) /\
  (~ (240 <= x <= 320 /\ (50 <= y <= 120 \/ 155 <= y <= 220)) ->
   touch_of Time_State env (Some (x, y, z)) false m = Normal true m).
Proof.
  cbn [touch_of]. rewrite Time_State_touch_eq, touch_buttons_eq.
  pose proof (touch_in_button_iff (x, y, z) (mkButton 320 50 240 120)) as H1.
  pose proof (touch_in_button_iff (x, y, z) (mkButton 320 155 240 220)) as H2.
  cbn [left right top bottom touch_x touch_y fst snd] in H1, H2.
  destruct (touch_in_button (x, y, z) (mkButton 320 50 240 120));
    destruct (touch_in_button (x, y, z) (mkButton 320 155 240 220));
    repeat split; intros; try reflexivity; exfalso;
    repeat match goal with
           | H : true = true <-> _ |- _ =>
               let K := fresh in pose proof (proj1 H eq_refl) as K; clear H
           | H : false = true <-> _ |- _ =>
               let K := fresh in
               assert (K : ~ (false = true)) by discriminate;
               rewrite H in K; clear H
           end;
    lia.
Qed.

(** ** Rate of the network calls *)

Lemma not_or_elapsed_gt_recent v now interval :
  ~ (v == 0)%Q -> (now - v <= interval)%Q ->
  not_or_elapsed_gt (Some v) now interval = false.
Proof.
  intros Hz Hle.
  destruct (not_or_elapsed_gt (Some v) now interval) eqn:E; [ | reflexivity].
  apply not_or_elapsed_gt_iff in E.
  destruct E as [E | (w & E & [H | H])]; [discriminate | | ];
    injection E as <-; [contradiction | lra].
Qed.

(** X15.  The network is asked at most once per interval.  After a time
    query that returned at clock reading [now] (other than 0), the query
    block does nothing at any reading [now'] with [now' - now <= 3600]; after
    a weather fetch that returned at [now], the fetch block does nothing at
    any [now'] with [now' - now <= 600]. *)
Theorem network_calls_are_rate_limited self env env' now now' m :
  ~ (now == 0)%Q ->
  let m1 := final (refresh_local_time self env now m) in
  let m2 := final (refresh_weather self env now m) in
  (local_time_ok env = true ->
   not_or_elapsed_gt (refresh_time (fields_of self m)) now 3600 = true ->
   (now' - now <= 3600)%Q ->
   refresh_local_time self env' now' m1 = Normal tt m1) /\
  (fetch_result env <> None ->
   not_or_elapsed_gt (weather_refresh (fields_of self m)) now 600 = true ->
   (now' - now <= 600)%Q ->
   refresh_weather self env' now' m2 = Normal tt m2).
Proof.
  intros Hz m1 m2. split.
  - intros Hok Hdue Hle.
    assert (E : refresh_time (fields_of self m1) = Some now).
    { unfold m1. rewrite refresh_local_time_stamp, Hdue, Hok. reflexivity. }
    unfold refresh_local_time at 1. cbn [bind read]. rewrite E.
    rewrite (not_or_elapsed_gt_recent _ _ _ Hz Hle). reflexivity.
  - intros Hok Hdue Hle.
    assert (E : weather_refresh (fields_of self m2) = Some now).
    { unfold m2. rewrite refresh_weather_stamp, Hdue.
      destruct (fetch_result env); [reflexivity | congruence]. }
    unfold refresh_weather at 1. cbn [bind read]. rewrite E.
    rewrite (not_or_elapsed_gt_recent _ _ _ Hz Hle). reflexivity.
Qed.

Lemma network_calls_are_rate_limited_witness :
  refresh_weather time_object (quiet_env 610 12 10) 610
    (final (refresh_weather time_object (quiet_env 10 12 0) 10
              machine_started))
  = Normal tt
      (final (refresh_weather time_object (quiet_env 10 12 0) 10
                machine_started)).
Proof.
  destruct (network_calls_are_rate_limited time_object (quiet_env 10 12 0)
              (quiet_env 610 12 10) 10 610 machine_started) as [_ H].
  - intros E. discriminate E.
  - apply H.
    + discriminate.
    + reflexivity.
    + vm_compute. discriminate.
Defined.

(** ** Open files *)

Ltac files_block m :=
  split_machine m;
  unfold files_balanced, files, handles, held, count, cancel_snooze,
    adjust_backlight_based_on_light, refresh_local_time, refresh_weather,
    drag_adjust, display_refresh, exit_of, enter_of, Time_State_enter,
    Alarm_State_enter, Setting_State_enter, Alarm_State_exit, State_exit,
    clear_splash;
  repeat match goal with
         | self : TimeObject |- _ => destruct self
         | s : StateName |- _ => destruct s
         | f : Time_Fields |- _ => destruct f
         end;
  crunch; try reflexivity; try lia.

Lemma files_balanced_ext m m' :
  files m' = files m -> files_balanced m -> files_balanced m'.
Proof.
  unfold files, files_balanced. intros E H. injection E as -> -> ->. exact H.
Qed.

Lemma cancel_snooze_files self env m :
  files (final (cancel_snooze self env m)) = files m.
Proof. files_block m. Qed.

Lemma adjust_backlight_files env force m :
  files (final (adjust_backlight_based_on_light env force m)) = files m.
Proof. files_block m. Qed.

Lemma refresh_local_time_files self env now m :
  files (final (refresh_local_time self env now m)) = files m.
Proof. files_block m. Qed.

Lemma drag_adjust_files p q m :
  files (final (drag_adjust p q m)) = files m.
Proof. files_block m. Qed.

Lemma exit_of_files s m : files (final (exit_of s m)) = files m.
Proof. files_block m. Qed.

(** The weather branch closes the icon file it holds before it opens the new
    one. *)
Lemma refresh_weather_balanced self env now m :
  files_balanced m -> files_balanced (final (refresh_weather self env now m)).
Proof. files_block m; cbn in *; intros; try discriminate; try congruence; lia. Qed.

(** [Time_State.enter] closes the snooze bitmap it holds before it opens it
    again. *)
Lemma enter_of_balanced s env m :
  files_balanced m -> files_balanced (final (enter_of s env m)).
Proof. files_block m; cbn in *; intros; try discriminate; try congruence; lia. Qed.

Lemma change_to_state_balanced env s m :
  files_balanced m -> files_balanced (final (change_to_state env s m)).
Proof.
  intros H. rewrite change_to_state_eq. apply enter_of_balanced.
  unfold before_enter. destruct (current_state (globals m)) as [c|].
  - apply (files_balanced_ext (final (exit_of c (add_event (ev_exit c) m))));
      [reflexivity | ].
    apply (files_balanced_ext (add_event (ev_exit c) m));
      [apply exit_of_files | exact H].
  - exact H.
Qed.

Lemma tick_of_balanced s env now m :
  files_balanced m -> files_balanced (final (tick_of s env now m)).
Proof.
  intros H. destruct s; cbn [tick_of].
  - rewrite Time_State_tick_eq. cbv zeta.
    set (m1 := final (cancel_snooze time_object env m)).
    assert (H1 : files_balanced m1).
    { apply (files_balanced_ext m); [apply cancel_snooze_files | exact H]. }
    destruct (and_elapsed_ge _ now snooze_interval).
    + apply change_to_state_balanced, H1.
    + rewrite update_clock_eq. cbv zeta.
      set (m4 := after_refreshes time_object env now m1).
      assert (H4 : files_balanced m4).
      { unfold m4, after_refreshes. apply refresh_weather_balanced.
        eapply files_balanced_ext; [apply refresh_local_time_files | ].
        eapply files_balanced_ext; [apply adjust_backlight_files | exact H1]. }
      assert (H5 : files_balanced (clock_redrawn time_object env now m4))
        by exact H4.
      destruct (not_or_elapsed_gt _ now 30); [ | exact H4].
      destruct (truthy _); [exact H5 | ].
      destruct (minute_matches env _); [ | exact H5].
      destruct (alarm_armed _); [ | exact H5].
      apply change_to_state_balanced, H5.
  - apply change_to_state_balanced, H.
  - rewrite Alarm_State_tick_eq. destruct (snooze_button_value env).
    + destruct (and_elapsed_gt _ _ _); exact H.
    + apply change_to_state_balanced. exact H.
  - exact H.
Qed.

Lemma touch_of_balanced s env t was m :
  files_balanced m -> files_balanced (final (touch_of s env t was m)).
Proof.
  intros H.
  assert (Hb : forall p,
             files_balanced (final (touch_buttons env p Time_State_buttons m))).
  { intros p. rewrite touch_buttons_eq.
    repeat destruct (touch_in_button _ _);
      try apply change_to_state_balanced; exact H. }
  assert (Hset : forall p,
             files_balanced
               (final (Setting_State_touch env (Some p) was m))).
  { intros p. rewrite Setting_State_touch_eq. cbv zeta. cbn [final].
    apply (files_balanced_ext
             (if touch_in_button p button_on then
                add_event (ev_set_text Setting_State 0
                             (clock_text (alarm_hour (globals m))
                                         (alarm_minute (globals m))))
                  (with_globals (set_alarm_enabled true) m)
              else if touch_in_button p button_return then
                final (change_to_state env Time_State m)
              else if touch_in_button p button_off then
                add_event (ev_set_text Setting_State 0 blank_text)
                  (with_globals (set_alarm_enabled false) m)
              else if alarm_enabled (globals m) then
                match previous_touch m with
                | Some q => final (drag_adjust p q m)
                | None => set_previous_touch (Some p) m
                end
              else m)); [reflexivity | ].
    destruct (touch_in_button p button_on); [exact H | ].
    destruct (touch_in_button p button_return);
      [apply change_to_state_balanced, H | ].
    destruct (touch_in_button p button_off); [exact H | ].
    destruct (alarm_enabled (globals m)); [ | exact H].
    destruct (previous_touch m) as [q|]; [ | exact H].
    apply (files_balanced_ext m); [apply drag_adjust_files | exact H]. }
  destruct s; cbn [touch_of];
    rewrite ?Time_State_touch_eq, ?Alarm_State_touch_eq;
    try (destruct t as [p|]; [apply Hset | exact H]);
    destruct t as [p|]; try destruct was; cbn [final];
    try apply Hb; try exact H.
  apply change_to_state_balanced. exact H.
Qed.

(** X16.  No file handle is lost.  In every machine the program reaches, the
    number of files opened (weather icons and the snooze bitmap) equals the
    number of files closed plus the number of files the attributes
    [icon_file] and [snooze_file] refer to: a file is closed before the
    attribute that holds it is given a new one. *)
Theorem no_file_handle_is_lost m :
  reachable m -> files_balanced m.
Proof.
  intros Hr. apply reachable_from_some in Hr. destruct Hr as [splash0 Hr].
  revert m Hr. apply reachable_from_ind.
  - intros env0. rewrite startup_eq. apply change_to_state_balanced.
    reflexivity.
  - intros env m Hm Hc.
    destruct (current_state (globals m)) as [s|] eqn:Hs; [ | congruence].
    destruct (loop_body_final env s m Hs) as (s' & Hs' & ->).
    apply tick_of_balanced.
    apply (files_balanced_ext
             (final (touch_of s env (touch_point env) (touched (globals m)) m)));
      [reflexivity | ].
    apply touch_of_balanced, Hm.
Qed.

Lemma no_file_handle_is_lost_witness :
  files_balanced machine_snoozed_then_disabled.
Proof.
  apply no_file_handle_is_lost.
  exists [base_layer 0], (quiet_env 5 23 19), snoozed_then_disabled.
  vm_compute. reflexivity.
Defined.
